(** * ioos_catalog.models.ping_latest : the rolling weekly window of pings

    A shallow embedding of [PingLatest] (src/ioos_catalog/models/ping_latest.py)
    and the properties of its slot indexing, gap filling, probe
    classification, flip detection and chronological rotation. *)

From Stdlib Require Import ZArith Lia Bool.
From stdpp Require Import base numbers list strings.

Local Open Scope Z_scope.

(** ** Python values used by the model *)

Module Py.

(** [l[i] = v] on a Python list: a negative index counts from the end, an
    index outside [-len, len) raises IndexError (here [None]). *)
Definition setitem {A : Type} (l : list A) (i : Z) (v : A) : option (list A) :=
  let n := Z.of_nat (length l) in
  if (0 <=? i) && (i <? n) then Some (<[Z.to_nat i := v]> l)
  else if (- n <=? i) && (i <? 0) then Some (<[Z.to_nat (n + i) := v]> l)
  else None.

(** Clamping of one slice bound, as [slice.indices] does for step 1. *)
Definition clamp (len i : Z) : Z :=
  if i <? 0 then Z.max 0 (i + len) else Z.min i len.

(** [l[a:b]] on a Python list. *)
Definition slice {A : Type} (l : list A) (a b : Z) : list A :=
  let n := Z.of_nat (length l) in
  let a' := clamp n a in
  let b' := clamp n b in
  take (Z.to_nat (b' - a')) (drop (Z.to_nat a') l).

(** Truth value of an object that is [None] or a [bool]. *)
Definition truthy (x : option bool) : bool :=
  match x with
  | Some b => b
  | None => false
  end.

(** [x and y]: [x] itself when it is falsy, otherwise [y]. *)
Definition and_ (x y : option bool) : option bool :=
  if truthy x then y else x.

(** [x != y] between objects that are [None] or a [bool]. *)
Definition ne_bool (x y : option bool) : bool :=
  match x, y with
  | Some a, Some b => negb (Bool.eqb a b)
  | None, None => false
  | _, _ => true
  end.

(** [x != y] between objects that are [None] or an [int]. *)
Definition ne_int (x y : option Z) : bool :=
  match x, y with
  | Some a, Some b => negb (a =? b)
  | None, None => false
  | _, _ => true
  end.

(** [x in l] for an int and a list of ints. *)
Definition in_ (x : Z) (l : list Z) : bool := existsb (Z.eqb x) l.

End Py.

(** ** Timestamps

    A naive [datetime] is the number of microseconds elapsed since
    0001-01-01 00:00:00 ([datetime.min]), which is a Monday (ordinal 1,
    [weekday() = 0]). The values of the type run from 0 to [datetime_max];
    arithmetic that leaves this range raises OverflowError (see
    [add_timedelta]). *)

Definition datetime := Z.

Definition MICROSECONDS_PER_HOUR : Z := 3600 * 1000000.
Definition MICROSECONDS_PER_DAY : Z := 24 * MICROSECONDS_PER_HOUR.
Definition MICROSECONDS_PER_WEEK : Z := 7 * MICROSECONDS_PER_DAY.

(** [datetime.max], 9999-12-31 23:59:59.999999: the last microsecond of the
    day of ordinal 3652059. *)
Definition datetime_max : datetime := 3652059 * MICROSECONDS_PER_DAY - 1.

(** [timedelta(hours=h)] *)
Definition timedelta_hours (h : Z) : Z := h * MICROSECONDS_PER_HOUR.

(** [dt.weekday()]: Monday is 0, Sunday is 6. *)
Definition weekday (dt : datetime) : Z := (dt / MICROSECONDS_PER_DAY) mod 7.

(** [dt.hour] *)
Definition hour (dt : datetime) : Z := (dt / MICROSECONDS_PER_HOUR) mod 24.

(** The calendar week a timestamp falls in (weeks start on Monday 00:00). *)
Definition week_of (dt : datetime) : Z := dt / MICROSECONDS_PER_WEEK.

(** ** The document *)

Definition ObjectId := string.

Record PingLatest : Type := mkPingLatest {
  service_id : option ObjectId;
  last_response_time : option Z;
  last_response_code : option Z;
  last_operational_status : option bool;
  last_good_time : option datetime;
  response_times : list (option Z);
  response_codes : list (option Z);
  operational_statuses : list (option bool);
  created : option datetime;
  updated : option datetime
}.

(** [default_values]: three lists of [24*7] absent slots; every field that
    has no default reads as [None]. *)
Definition default_document (now : datetime) : PingLatest :=
  {| service_id := None;
     last_response_time := None;
     last_response_code := None;
     last_operational_status := None;
     last_good_time := None;
     response_times := replicate (24 * 7) None;
     response_codes := replicate (24 * 7) None;
     operational_statuses := replicate (24 * 7) None;
     created := Some now;
     updated := None |}.

Definition with_last_response_time (v : option Z) (self : PingLatest) :=
  mkPingLatest (service_id self) v (last_response_code self)
    (last_operational_status self) (last_good_time self) (response_times self)
    (response_codes self) (operational_statuses self) (created self) (updated self).

Definition with_last_response_code (v : option Z) (self : PingLatest) :=
  mkPingLatest (service_id self) (last_response_time self) v
    (last_operational_status self) (last_good_time self) (response_times self)
    (response_codes self) (operational_statuses self) (created self) (updated self).

Definition with_last_operational_status (v : option bool) (self : PingLatest) :=
  mkPingLatest (service_id self) (last_response_time self) (last_response_code self)
    v (last_good_time self) (response_times self)
    (response_codes self) (operational_statuses self) (created self) (updated self).

Definition with_last_good_time (v : option datetime) (self : PingLatest) :=
  mkPingLatest (service_id self) (last_response_time self) (last_response_code self)
    (last_operational_status self) v (response_times self)
    (response_codes self) (operational_statuses self) (created self) (updated self).

Definition with_response_times (v : list (option Z)) (self : PingLatest) :=
  mkPingLatest (service_id self) (last_response_time self) (last_response_code self)
    (last_operational_status self) (last_good_time self) v
    (response_codes self) (operational_statuses self) (created self) (updated self).

Definition with_response_codes (v : list (option Z)) (self : PingLatest) :=
  mkPingLatest (service_id self) (last_response_time self) (last_response_code self)
    (last_operational_status self) (last_good_time self) (response_times self)
    v (operational_statuses self) (created self) (updated self).

Definition with_operational_statuses (v : list (option bool)) (self : PingLatest) :=
  mkPingLatest (service_id self) (last_response_time self) (last_response_code self)
    (last_operational_status self) (last_good_time self) (response_times self)
    (response_codes self) v (created self) (updated self).

Definition with_updated (v : option datetime) (self : PingLatest) :=
  mkPingLatest (service_id self) (last_response_time self) (last_response_code self)
    (last_operational_status self) (last_good_time self) (response_times self)
    (response_codes self) (operational_statuses self) (created self) v.

(** ** Exceptions and the state monad of a method call

    A method runs on the document it mutates; it returns a value, raises, or
    (in the model only) runs out of loop fuel. A raise keeps the mutations
    made before it. *)

Inductive exception : Type :=
  | ConnectionError   (* requests.ConnectionError or a subclass *)
  | HTTPError         (* requests.HTTPError or a subclass *)
  | Timeout           (* requests.Timeout or a subclass *)
  | IndexError
  | TypeError
  | OverflowError
  | AssertionError
  | OtherException (cls : string). (* an instance of none of the above *)

Inductive result (A : Type) : Type :=
  | Ok (a : A)
  | Raise (e : exception)
  | OutOfFuel.

Arguments Ok {A} a.
Arguments Raise {A} e.
Arguments OutOfFuel {A}.

Definition M (A : Type) : Type := PingLatest -> result A * PingLatest.

Definition ret {A : Type} (a : A) : M A := fun self => (Ok a, self).

Definition bind {A B : Type} (m : M A) (k : A -> M B) : M B :=
  fun self =>
    match m self with
    | (Ok a, self') => k a self'
    | (Raise e, self') => (Raise e, self')
    | (OutOfFuel, self') => (OutOfFuel, self')
    end.

Definition raise {A : Type} (e : exception) : M A := fun self => (Raise e, self).

Definition gets {A : Type} (f : PingLatest -> A) : M A := fun self => (Ok (f self), self).

Definition modify (f : PingLatest -> PingLatest) : M unit := fun self => (Ok tt, f self).

Declare Scope py_scope.
Delimit Scope py_scope with py.
Notation "x ← y ; z" := (bind y (fun x => z))
  (at level 20, y at level 100, z at level 200, only parsing) : py_scope.
Notation "x ;; z" := (bind x (fun _ => z))
  (at level 100, z at level 200, only parsing, right associativity) : py_scope.
Local Open Scope py_scope.

(** [dt + delta] for a datetime and a timedelta: OverflowError when the sum
    is not a datetime. *)
Definition add_timedelta (dt : datetime) (delta : Z) : M datetime :=
  if (0 <=? dt + delta) && (dt + delta <=? datetime_max) then ret (dt + delta)
  else raise OverflowError.

(** [self.<field>[idx] = v] for a field holding a list. *)
Definition setitem_field {A : Type} (get : PingLatest -> list A)
    (set : list A -> PingLatest -> PingLatest) (idx : option Z) (v : A) : M unit :=
  fun self =>
    match idx with
    | None => (Raise TypeError, self)
    | Some i =>
        match Py.setitem (get self) i v with
        | Some l => (Ok tt, set l self)
        | None => (Raise IndexError, self)
        end
    end.

(** ** The methods *)

(** [get_index] (lines 92-96) *)
Definition get_index (dt : option datetime) : option Z :=
  match dt with
  | None => None
  | Some d => Some (weekday d * 24 + hour d)
  end.

(** The [while start_dt < dt] loop of [set_ping_data] (lines 109-116). The
    value is the number of times the body ran; [fuel] bounds the number of
    times the condition is tested. The step of line 116 raises OverflowError
    when it leaves the datetimes, after the slot of that iteration has been
    nulled. *)
Fixpoint gap_loop (fuel : nat) (dt start_dt : datetime) : M nat :=
  match fuel with
  | O => fun self => (OutOfFuel, self)
  | S fuel' =>
      if start_dt <? dt then
        let idx := get_index (Some start_dt) in
        setitem_field response_times with_response_times idx None ;;
        setitem_field response_codes with_response_codes idx None ;;
        setitem_field operational_statuses with_operational_statuses idx None ;;
        start_dt ← add_timedelta start_dt (timedelta_hours 1) ;
        n ← gap_loop fuel' dt start_dt ;
        ret (S n)
      else ret O
  end.

(** Fuel for a walk from [start_dt] up to [dt]: the number of whole hours
    between them, plus two. *)
Definition gap_fuel (dt start_dt : datetime) : nat :=
  S (Z.to_nat ((dt - start_dt) / MICROSECONDS_PER_HOUR + 1)).

(** Lines 107-116: [start_dt += timedelta(hours=1)] (OverflowError when
    [updated] lies in the last hour before [datetime.max]), then the loop. *)
Definition gap_fill (dt : datetime) (start_dt : option datetime) : M nat :=
  match start_dt with
  | Some u =>
      start_dt ← add_timedelta u (timedelta_hours 1) ;
      gap_loop (gap_fuel dt start_dt) dt start_dt
  | None => ret O
  end.

(** [start_dt is not None and start_dt > dt] (line 102) *)
Definition is_stale (start_dt : option datetime) (dt : datetime) : bool :=
  match start_dt with
  | Some u => u >? dt
  | None => false
  end.

(** [set_ping_data] (lines 98-132). The bare [return] of the stale branch
    yields [None]; its [print] is not modelled. *)
Definition set_ping_data (dt : datetime) (response_time : option Z)
    (response_code : Z) (operational_status : bool) : M (option Z) :=
  start_dt ← gets updated ;
  if is_stale start_dt dt then ret None
  else
    gap_fill dt start_dt ;;
    modify (with_updated (Some dt)) ;;
    modify (with_last_response_time response_time) ;;
    modify (with_last_response_code (Some response_code)) ;;
    modify (with_last_operational_status (Some operational_status)) ;;
    (if operational_status then modify (with_last_good_time (Some dt)) else ret tt) ;;
    let idx := get_index (Some dt) in
    setitem_field response_times with_response_times idx response_time ;;
    setitem_field response_codes with_response_codes idx (Some response_code) ;;
    setitem_field operational_statuses with_operational_statuses idx
      (Some operational_status) ;;
    ret idx.

(** What [s.ping(timeout=...)] does: it returns a response time and a
    response code, or raises. The method itself belongs to the Service
    document, so a service is given by the outcome of its probe. *)
Inductive ping_outcome : Type :=
  | Pinged (response_time response_code : Z)
  | PingRaises (e : exception).

Record Service : Type := mkService { ping : Z -> ping_outcome }.

(** The clause [except (requests.ConnectionError, requests.HTTPError,
    requests.Timeout)] (line 83). *)
Definition caught (e : exception) : bool :=
  match e with
  | ConnectionError | HTTPError | Timeout => true
  | _ => false
  end.

(** The [try] statement of [ping_service] (lines 80-86): the sample handed
    to [set_ping_data]. *)
Definition probe (s : Service) : M (option Z * Z * bool) :=
  match ping s 15 with
  | Pinged response_time response_code =>
      let operational_status :=
        if Py.in_ response_code [200; 400] then true else false in
      ret (Some response_time, response_code, operational_status)
  | PingRaises e =>
      if caught e then ret (None, -1, false) else raise e
  end.

(** [ping_service] (lines 65-90). [found] is the result of
    [db.Service.find_one], [utcnow] the value of [datetime.utcnow()]. *)
Definition ping_service (found : option Service) (utcnow : datetime)
    : M (bool * option bool) :=
  match found with
  | None => raise AssertionError
  | Some s =>
      last ← gets last_operational_status ;
      last_idx ← gets (fun self => get_index (updated self)) ;
      let dt := utcnow in
      sample ← probe s ;
      let '(response_time, response_code, operational_status) := sample in
      idx ← set_ping_data dt response_time response_code operational_status ;
      ret (Py.ne_int last_idx idx,
           Py.and_ last (Some (Py.ne_bool last (Some operational_status))))
  end.

(** [get_current_data] (lines 134-147), for [datetime.utcnow() = utcnow]. *)
Definition get_current_data (utcnow : datetime)
    : M (list (option Z) * list (option bool)) :=
  let start_dt := utcnow in
  match get_index (Some start_dt) with
  | None => raise TypeError
  | Some idx =>
      rts ← gets response_times ;
      oss ← gets operational_statuses ;
      if idx =? 167 then ret (rts, oss)
      else
        let start_idx := idx + 1 in
        ret (Py.slice rts start_idx 168 ++ Py.slice rts 0 start_idx,
             Py.slice oss start_idx 168 ++ Py.slice oss 0 start_idx)
  end.

(** ** Observations on a document *)

(** The triple stored for slot [i]. *)
Definition triple (self : PingLatest) (i : nat)
    : option (option Z) * option (option Z) * option (option bool) :=
  (response_times self !! i, response_codes self !! i, operational_statuses self !! i).

(** The three lists have their [24*7] slots. *)
Definition well_formed (self : PingLatest) : Prop :=
  length (response_times self) = 168%nat /\
  length (response_codes self) = 168%nat /\
  length (operational_statuses self) = 168%nat.

(** The triple of a slot that holds no sample. *)
Definition absent_triple
    : option (option Z) * option (option Z) * option (option bool) :=
  (Some None, Some None, Some None).

(** The document after a call, and the call's result. *)
Definition state_after {A : Type} (m : M A) (self : PingLatest) : PingLatest := snd (m self).
Definition result_of {A : Type} (m : M A) (self : PingLatest) : result A := fst (m self).

(** 9999-12-31 at 20:10 and at 23:50, in the last hours of the datetimes. *)
Definition last_day_2010 : datetime :=
  3652058 * MICROSECONDS_PER_DAY + 20 * MICROSECONDS_PER_HOUR + 10 * 60 * 1000000.
Definition last_day_2350 : datetime :=
  3652058 * MICROSECONDS_PER_DAY + 23 * MICROSECONDS_PER_HOUR + 50 * 60 * 1000000.

(** Monday 00:15 and Monday 03:20 of the first week. *)
Definition mon_0015 : datetime := 15 * 60 * 1000000.
Definition mon_0320 : datetime := 3 * MICROSECONDS_PER_HOUR + 20 * 60 * 1000000.

(** ** Auxiliary definitions used by the statements and proofs *)

(** The number of whole hours since the epoch. *)
Definition hours_of (dt : datetime) : Z := dt / MICROSECONDS_PER_HOUR.

(** The slot of a timestamp, as a number. *)
Definition slot (dt : datetime) : Z := weekday dt * 24 + hour dt.

(** The three list writes [self.response_times[i] = rt], ... as one update. *)
Definition store (i : nat) (rt rc : option Z) (os : option bool)
    (self : PingLatest) : PingLatest :=
  with_operational_statuses (<[i := os]> (operational_statuses self))
    (with_response_codes (<[i := rc]> (response_codes self))
       (with_response_times (<[i := rt]> (response_times self)) self)).

(** The number of iterations of the walk from [start_dt] up to [dt]. *)
Definition gap_count (dt start_dt : datetime) : nat :=
  Z.to_nat ((dt - start_dt + MICROSECONDS_PER_HOUR - 1) / MICROSECONDS_PER_HOUR).

(** The document after [n] iterations of the walk starting at [start_dt]. *)
Fixpoint null_walk (n : nat) (start_dt : datetime) (self : PingLatest) : PingLatest :=
  match n with
  | O => self
  | S n' =>
      null_walk n' (start_dt + timedelta_hours 1)
        (store (Z.to_nat (slot start_dt)) None None None self)
  end.

(** The fields of a document other than its three lists. *)
Definition scalars (self : PingLatest) :=
  (service_id self, last_response_time self, last_response_code self,
   last_operational_status self, last_good_time self, created self, updated self).

(** The document after the gap-filling walk of a call at [dt]. *)
Definition gap_filled (dt : datetime) (self : PingLatest) : PingLatest :=
  match updated self with
  | Some u =>
      null_walk (gap_count dt (u + timedelta_hours 1)) (u + timedelta_hours 1) self
  | None => self
  end.

(** Lines 119-124: the "latest" fields. *)
Definition set_latest (dt : datetime) (rt : option Z) (rc : Z) (os : bool)
    (self : PingLatest) : PingLatest :=
  let self1 :=
    with_last_operational_status (Some os)
      (with_last_response_code (Some rc)
         (with_last_response_time rt (with_updated (Some dt) self))) in
  if os then with_last_good_time (Some dt) self1 else self1.

(** The arguments of one [set_ping_data] call. *)
Record sample : Type := mkSample {
  sample_dt : datetime;
  sample_response_time : option Z;
  sample_response_code : Z;
  sample_operational_status : bool
}.

(** The document after one call; an exception raised by the call is taken to
    be handled by the caller, who keeps the document. *)
Definition record_sample (self : PingLatest) (c : sample) : PingLatest :=
  state_after
    (set_ping_data (sample_dt c) (sample_response_time c) (sample_response_code c)
       (sample_operational_status c)) self.

(** The document after a sequence of calls. *)
Definition record_all (calls : list sample) (self : PingLatest) : PingLatest :=
  foldl record_sample self calls.

(** Order on the [updated] field: unset comes first. *)
Definition updated_le (a b : option datetime) : Prop :=
  match a, b with
  | None, _ => True
  | Some x, Some y => x <= y
  | Some _, None => False
  end.

(** A triple is all-absent or all-present. *)
Definition all_or_none
    (t : option (option Z) * option (option Z) * option (option bool)) : bool :=
  match t with
  | (Some None, Some None, Some None) => true
  | (Some (Some _), Some (Some _), Some (Some _)) => true
  | _ => false
  end.

(** Every slot holds an all-absent or all-present triple. *)
Definition triple_invariant (self : PingLatest) : Prop :=
  forall i : nat, (i < 168)%nat -> all_or_none (triple self i) = true.

(** The same, as a check over the 168 slots. *)
Definition triple_invariant_b (self : PingLatest) : bool :=
  forallb (fun i => all_or_none (triple self i)) (seq 0 168).

(** Lines 88-90 once the sample [(rt, rc, os)] has been classified. *)
Definition finish_ping (last : option bool) (last_idx : option Z)
    (dt : datetime) (rt : option Z) (rc : Z) (os : bool) : M (bool * option bool) :=
  idx ← set_ping_data dt rt rc os ;
  ret (Py.ne_int last_idx idx, Py.and_ last (Some (Py.ne_bool last (Some os)))).

(** Sample services: one that answers 200 in 120 ms, one that answers 400,
    one whose probe times out, one whose probe raises an exception that
    [requests] does not derive from the three caught classes. *)
Definition good_service : Service := mkService (fun _ => Pinged 120 200).
Definition bad_request_service : Service := mkService (fun _ => Pinged 35 400).
Definition failing_service : Service := mkService (fun _ => PingRaises Timeout).
Definition redirecting_service : Service :=
  mkService (fun _ => PingRaises (OtherException "requests.TooManyRedirects")).

(** The spec's "elements [a] through [b]" of an array: the elements found at
    the indices [a], [a+1], ..., [b], in that order. *)
Definition elements {A : Type} (l : list A) (a b : nat) : list A :=
  omap (fun k => l !! k) (seq a (S b - a)).

(** When the latest recorded sample was operational, [last_good_time] is
    the time of that sample. *)
Definition good_time_recorded (self : PingLatest) : Prop :=
  last_operational_status self = Some true ->
  is_Some (last_good_time self) /\ last_good_time self = updated self.

(** ** [get_for_service] and further observations *)

Definition with_service_id (v : option ObjectId) (self : PingLatest) :=
  mkPingLatest v (last_response_time self) (last_response_code self)
    (last_operational_status self) (last_good_time self) (response_times self)
    (response_codes self) (operational_statuses self) (created self) (updated self).

(** [get_for_service] (lines 51-63). The collection is given by what
    [db.PingLatest.find_one({'service_id': service_id})] answers; [utcnow] is
    the clock read by the [created] default of [db.PingLatest()]. A stored
    document holds at least its [service_id], so it is truthy. *)
Definition get_for_service (find_one : ObjectId -> option PingLatest)
    (utcnow : datetime) (service_id : ObjectId) : PingLatest :=
  match find_one service_id with
  | Some pl => pl
  | None => with_service_id (Some service_id) (default_document utcnow)
  end.

(** The lengths of the three lists. *)
Definition lengths (self : PingLatest) : nat * nat * nat :=
  (length (response_times self), length (response_codes self),
   length (operational_statuses self)).

(** The "latest" fields are the triple stored in the slot of [updated]. *)
Definition latest_in_window (self : PingLatest) : Prop :=
  match updated self with
  | Some u =>
      triple self (Z.to_nat (slot u))
      = (Some (last_response_time self), Some (last_response_code self),
         Some (last_operational_status self))
  | None => True
  end.

(** A method keeps the observation [f] of the document, whatever it returns
    or raises. *)
Definition keeps {A X : Type} (f : PingLatest -> X) (m : M A) : Prop :=
  forall self : PingLatest, f (snd (m self)) = f self.

(** The walk of a call at [dt] stays among the datetimes: [updated], when
    set, is a datetime, and [dt] is at least one hour before [datetime_max]. *)
Definition walk_in_range (self : PingLatest) (dt : datetime) : Prop :=
  match updated self with
  | Some u => 0 <= u /\ dt + timedelta_hours 1 <= datetime_max
  | None => True
  end.

(** * Properties *)

Example scenario_first_probe :
  let s := mkService (fun _ => Pinged 120 200) in
  let self := default_document 0 in
  result_of (ping_service (Some s) mon_0015) self = Ok (true, None) /\
  triple (state_after (ping_service (Some s) mon_0015) self) 0
    = (Some (Some 120), Some (Some 200), Some (Some true)) /\
  last_good_time (state_after (ping_service (Some s) mon_0015) self) = Some mon_0015.
Proof. vm_compute. auto. Qed.

Example scenario_timeout :
  let s1 := mkService (fun _ => Pinged 120 200) in
  let s2 := mkService (fun _ => PingRaises Timeout) in
  let self := state_after (ping_service (Some s1) mon_0015) (default_document 0) in
  let self' := state_after (ping_service (Some s2) mon_0320) self in
  result_of (ping_service (Some s2) mon_0320) self = Ok (true, Some true) /\
  triple self' 0 = (Some (Some 120), Some (Some 200), Some (Some true)) /\
  triple self' 1 = absent_triple /\
  triple self' 2 = absent_triple /\
  triple self' 3 = (Some None, Some (Some (-1)), Some (Some false)).
Proof. vm_compute. auto 10. Qed.

(** At the end of the datetimes the walk overflows: with [updated] at
    9999-12-31 20:10 and a sample at 23:50 (slots 116 and 119) the body runs
    for 21:10, 22:10 and 23:10, the next step raises OverflowError, and the
    sample is never written; [updated] keeps its value. *)
Example walk_overflows_on_the_last_day :
  let self := state_after (set_ping_data last_day_2010 (Some 120) 200 true)
                (default_document 0) in
  let self' := state_after (set_ping_data last_day_2350 (Some 35) 200 true) self in
  get_index (Some last_day_2010) = Some 116 /\
  get_index (Some last_day_2350) = Some 119 /\
  result_of (set_ping_data last_day_2350 (Some 35) 200 true) self = Raise OverflowError /\
  triple self' 119 = absent_triple /\
  updated self' = Some last_day_2010 /\
  last_response_time self' = Some 120.
Proof. vm_compute. repeat split. Qed.

(** ** Slot arithmetic *)

Lemma hour_pos : 0 < MICROSECONDS_PER_HOUR.
Proof. reflexivity. Qed.

Lemma get_index_slot (dt : datetime) : get_index (Some dt) = Some (slot dt).
Proof. reflexivity. Qed.

Lemma slot_hours_of (dt : datetime) : slot dt = hours_of dt mod 168.
Proof.
  unfold slot, weekday, hour, hours_of, MICROSECONDS_PER_DAY.
  rewrite (Z.mul_comm 24), <- Z.div_div by (pose proof hour_pos; lia).
  generalize (dt / MICROSECONDS_PER_HOUR). intros q.
  Z.to_euclidean_division_equations; lia.
Qed.

Lemma slot_range (dt : datetime) : 0 <= slot dt < 168.
Proof. rewrite slot_hours_of. apply Z.mod_pos_bound. lia. Qed.

Lemma slot_nat_lt (dt : datetime) : (Z.to_nat (slot dt) < 168)%nat.
Proof. pose proof (slot_range dt). lia. Qed.

(** Side conditions of the slot writes: the index is in range and the lists
    keep their 168 slots. *)
Create HintDb wf.
#[local] Hint Resolve slot_range slot_nat_lt : wf.

Lemma hours_of_add (dt : datetime) (k : Z) :
  hours_of (dt + timedelta_hours k) = hours_of dt + k.
Proof.
  unfold hours_of, timedelta_hours. apply Z.div_add. pose proof hour_pos; lia.
Qed.

(** The ring property: a week later a timestamp falls in the same slot. *)
Lemma slot_next_week (dt : datetime) : slot (dt + timedelta_hours 168) = slot dt.
Proof.
  rewrite !slot_hours_of, hours_of_add.
  Z.to_euclidean_division_equations; lia.
Qed.

Lemma week_of_hours (dt : datetime) : week_of dt = hours_of dt / 168.
Proof.
  unfold week_of, hours_of, MICROSECONDS_PER_WEEK, MICROSECONDS_PER_DAY.
  rewrite Z.div_div by (pose proof hour_pos; lia).
  f_equal; lia.
Qed.

Lemma hours_of_mono (a b : datetime) : a <= b -> hours_of a <= hours_of b.
Proof. intros. apply Z.div_le_mono; [apply hour_pos | done]. Qed.

Lemma hours_of_lt (a b : datetime) : hours_of a < hours_of b -> a < b.
Proof.
  intros Hlt. destruct (Z_lt_le_dec a b) as [|Hle]; [done|].
  apply hours_of_mono in Hle. lia.
Qed.

(** ** The effect of the slot writes on a well-formed document *)

Lemma setitem_in_range {A : Type} (l : list A) (i : Z) (v : A) :
  0 <= i < Z.of_nat (length l) ->
  Py.setitem l i v = Some (<[Z.to_nat i := v]> l).
Proof.
  intros [H0 H1]. unfold Py.setitem.
  apply Z.leb_le in H0. apply Z.ltb_lt in H1. by rewrite H0, H1.
Qed.

Lemma store_well_formed i rt rc os self :
  well_formed self -> well_formed (store i rt rc os self).
Proof.
  unfold well_formed, store. cbn. rewrite !length_insert. done.
Qed.

#[local] Hint Resolve store_well_formed : wf.

Lemma write_slot_run {B : Type} (i : Z) rt rc os (k : M B) (self : PingLatest) :
  well_formed self -> 0 <= i < 168 ->
  (setitem_field response_times with_response_times (Some i) rt ;;
   setitem_field response_codes with_response_codes (Some i) rc ;;
   setitem_field operational_statuses with_operational_statuses (Some i) os ;;
   k)%py self
  = k (store (Z.to_nat i) rt rc os self).
Proof.
  intros (Ht & Hc & Ho) Hi. unfold bind, setitem_field. cbn.
  rewrite !setitem_in_range by (cbn; lia). done.
Qed.

Lemma gap_count_step (dt start_dt : datetime) :
  start_dt < dt ->
  gap_count dt start_dt = S (gap_count dt (start_dt + timedelta_hours 1)).
Proof.
  intros Hlt. unfold gap_count, timedelta_hours. pose proof hour_pos as Hp.
  rewrite <- Z2Nat.inj_succ.
  - f_equal.
    replace (dt - start_dt + MICROSECONDS_PER_HOUR - 1)
      with (dt - (start_dt + 1 * MICROSECONDS_PER_HOUR) + MICROSECONDS_PER_HOUR - 1
            + 1 * MICROSECONDS_PER_HOUR) by lia.
    rewrite Z.div_add by lia. lia.
  - apply Z.div_pos; lia.
Qed.

Lemma gap_count_done (dt start_dt : datetime) :
  dt <= start_dt -> gap_count dt start_dt = O.
Proof.
  intros Hle. unfold gap_count. pose proof hour_pos as Hp.
  assert ((dt - start_dt + MICROSECONDS_PER_HOUR - 1) / MICROSECONDS_PER_HOUR < 1)
    by (apply Z.div_lt_upper_bound; lia).
  lia.
Qed.

Lemma gap_fuel_enough (dt start_dt : datetime) :
  (gap_count dt start_dt < gap_fuel dt start_dt)%nat.
Proof.
  unfold gap_count, gap_fuel. pose proof hour_pos as Hp.
  assert ((dt - start_dt + MICROSECONDS_PER_HOUR - 1) / MICROSECONDS_PER_HOUR
          <= (dt - start_dt) / MICROSECONDS_PER_HOUR + 1) as Hle.
  { rewrite <- (Z.div_add _ 1) by lia. apply Z.div_le_mono; lia. }
  lia.
Qed.

Lemma add_timedelta_run (dt delta : Z) (self : PingLatest) :
  0 <= dt + delta <= datetime_max ->
  add_timedelta dt delta self = (Ok (dt + delta), self).
Proof.
  intros [H0 H1]. unfold add_timedelta.
  apply Z.leb_le in H0. apply Z.leb_le in H1. by rewrite H0, H1.
Qed.

Lemma add_timedelta_cases (dt delta : Z) (self : PingLatest) :
  add_timedelta dt delta self = (Ok (dt + delta), self) \/
  add_timedelta dt delta self = (Raise OverflowError, self).
Proof.
  unfold add_timedelta.
  destruct ((0 <=? dt + delta) && (dt + delta <=? datetime_max)); auto.
Qed.

(** On a well-formed document, as long as the steps stay among the
    datetimes, the walk raises nothing, and with enough fuel it runs
    [gap_count] times. *)
Lemma gap_loop_run (fuel : nat) (dt start_dt : datetime) (self : PingLatest) :
  well_formed self -> (gap_count dt start_dt < fuel)%nat ->
  0 <= start_dt -> dt + timedelta_hours 1 <= datetime_max ->
  gap_loop fuel dt start_dt self
  = (Ok (gap_count dt start_dt), null_walk (gap_count dt start_dt) start_dt self).
Proof.
  revert start_dt self.
  induction fuel as [|fuel IH]; intros start_dt self Hwf Hfuel H0 Hmax; [lia|].
  cbn [gap_loop]. destruct (start_dt <? dt) eqn:Hcond.
  - apply Z.ltb_lt in Hcond.
    rewrite (gap_count_step dt start_dt Hcond) in *.
    rewrite get_index_slot, write_slot_run by eauto with wf.
    assert (0 <= start_dt + timedelta_hours 1 <= datetime_max) as Hstep
      by (unfold timedelta_hours in *; pose proof hour_pos; lia).
    unfold bind at 1. rewrite add_timedelta_run by done.
    unfold bind. rewrite IH by (by apply store_well_formed || lia). done.
  - apply Z.ltb_ge in Hcond. rewrite gap_count_done by done. done.
Qed.

(** On a well-formed document the walk either runs to its end or stops with
    OverflowError after some of its steps; the slot writes never fail. *)
Lemma gap_loop_cases (fuel : nat) (dt start_dt : datetime) (self : PingLatest) :
  well_formed self -> (gap_count dt start_dt < fuel)%nat ->
  gap_loop fuel dt start_dt self
  = (Ok (gap_count dt start_dt), null_walk (gap_count dt start_dt) start_dt self) \/
  exists m : nat,
    gap_loop fuel dt start_dt self = (Raise OverflowError, null_walk m start_dt self).
Proof.
  revert start_dt self.
  induction fuel as [|fuel IH]; intros start_dt self Hwf Hfuel; [lia|].
  destruct (gap_loop (S fuel) dt start_dt self) as [r s'] eqn:Hg.
  cbn [gap_loop] in Hg. destruct (start_dt <? dt) eqn:Hcond.
  - apply Z.ltb_lt in Hcond.
    rewrite (gap_count_step dt start_dt Hcond) in *.
    rewrite get_index_slot, write_slot_run in Hg by eauto with wf.
    unfold bind at 1 in Hg.
    destruct (add_timedelta_cases start_dt (timedelta_hours 1)
                (store (Z.to_nat (slot start_dt)) None None None self)) as [Ha|Ha];
      rewrite Ha in Hg.
    + unfold bind in Hg.
      destruct (IH (start_dt + timedelta_hours 1)
                  (store (Z.to_nat (slot start_dt)) None None None self)
                  ltac:(by apply store_well_formed) ltac:(lia)) as [Hl|[m Hl]];
        rewrite Hl in Hg; cbn in Hg; injection Hg as <- <-.
      * by left.
      * right. exists (S m). reflexivity.
    + injection Hg as <- <-. right. exists 1%nat. reflexivity.
  - apply Z.ltb_ge in Hcond. rewrite gap_count_done by done.
    cbn in Hg. injection Hg as <- <-. by left.
Qed.

Lemma null_walk_well_formed (n : nat) (start_dt : datetime) (self : PingLatest) :
  well_formed self -> well_formed (null_walk n start_dt self).
Proof.
  revert start_dt self. induction n as [|n IH]; intros start_dt self Hwf; [done|].
  cbn. by apply IH, store_well_formed.
Qed.

#[local] Hint Resolve null_walk_well_formed : wf.

(** ** Observations that a method keeps *)

Section Keeps.
Context {X : Type} (f : PingLatest -> X).

Lemma keeps_ret {A : Type} (a : A) : keeps f (ret a).
Proof. by intros self. Qed.

Lemma keeps_raise {A : Type} (e : exception) : keeps f (raise (A := A) e).
Proof. by intros self. Qed.

Lemma keeps_gets {A : Type} (g : PingLatest -> A) : keeps f (gets g).
Proof. by intros self. Qed.

Lemma keeps_modify (g : PingLatest -> PingLatest) :
  (forall s, f (g s) = f s) -> keeps f (modify g).
Proof. intros Hg self. apply Hg. Qed.

Lemma keeps_bind {A B : Type} (m : M A) (k : A -> M B) :
  keeps f m -> (forall a, keeps f (k a)) -> keeps f (bind m k).
Proof.
  intros Hm Hk self. unfold bind. specialize (Hm self).
  destruct (m self) as [[a|e|] s1]; cbn in *; [|done|done].
  by rewrite Hk.
Qed.
End Keeps.

Lemma keeps_add_timedelta {X : Type} (f : PingLatest -> X) dt delta :
  keeps f (add_timedelta dt delta).
Proof.
  intros self. by destruct (add_timedelta_cases dt delta self) as [-> | ->].
Qed.

Lemma setitem_length {A : Type} (l l' : list A) (i : Z) (v : A) :
  Py.setitem l i v = Some l' -> length l' = length l.
Proof.
  unfold Py.setitem. intros Hset.
  repeat case_match; simplify_eq; by rewrite length_insert.
Qed.

Lemma keeps_lengths_setitem {A : Type} (get : PingLatest -> list A)
    (set : list A -> PingLatest -> PingLatest) idx v :
  (forall l s, length l = length (get s) -> lengths (set l s) = lengths s) ->
  keeps lengths (setitem_field get set idx v).
Proof.
  intros Hset self. unfold setitem_field. destruct idx as [i|]; [|done].
  destruct (Py.setitem (get self) i v) as [l|] eqn:Hl; [|done].
  cbn. apply Hset. by apply setitem_length in Hl.
Qed.

Lemma keeps_lengths_times idx v :
  keeps lengths (setitem_field response_times with_response_times idx v).
Proof.
  apply keeps_lengths_setitem. intros l s Hl. unfold lengths. cbn. by rewrite Hl.
Qed.

Lemma keeps_lengths_codes idx v :
  keeps lengths (setitem_field response_codes with_response_codes idx v).
Proof.
  apply keeps_lengths_setitem. intros l s Hl. unfold lengths. cbn. by rewrite Hl.
Qed.

Lemma keeps_lengths_statuses idx v :
  keeps lengths (setitem_field operational_statuses with_operational_statuses idx v).
Proof.
  apply keeps_lengths_setitem. intros l s Hl. unfold lengths. cbn. by rewrite Hl.
Qed.

Lemma keeps_lengths_gap_loop fuel dt start_dt :
  keeps lengths (gap_loop fuel dt start_dt).
Proof.
  revert start_dt. induction fuel as [|fuel IH]; intros start_dt; [by intros self|].
  cbn [gap_loop]. destruct (start_dt <? dt); [|apply keeps_ret].
  apply keeps_bind; [apply keeps_lengths_times | intros _].
  apply keeps_bind; [apply keeps_lengths_codes | intros _].
  apply keeps_bind; [apply keeps_lengths_statuses | intros _].
  apply keeps_bind; [apply keeps_add_timedelta | intros start_dt'].
  apply keeps_bind; [apply IH | intros n; apply keeps_ret].
Qed.

Lemma keeps_lengths_set_ping_data dt rt rc os :
  keeps lengths (set_ping_data dt rt rc os).
Proof.
  unfold set_ping_data.
  apply keeps_bind; [apply keeps_gets | intros start_dt].
  destruct (is_stale start_dt dt); [apply keeps_ret|].
  apply keeps_bind.
  { unfold gap_fill. destruct start_dt; [|apply keeps_ret].
    apply keeps_bind; [apply keeps_add_timedelta | intros start_dt'].
    apply keeps_lengths_gap_loop. }
  intros _. do 4 (apply keeps_bind; [by apply keeps_modify | intros _]).
  apply keeps_bind.
  { destruct os; [by apply keeps_modify | apply keeps_ret]. }
  intros _.
  apply keeps_bind; [apply keeps_lengths_times | intros _].
  apply keeps_bind; [apply keeps_lengths_codes | intros _].
  apply keeps_bind; [apply keeps_lengths_statuses | intros _].
  apply keeps_ret.
Qed.

Lemma keeps_probe {X : Type} (f : PingLatest -> X) s : keeps f (probe s).
Proof.
  unfold probe. destruct (ping s 15) as [rt rc|e]; [apply keeps_ret|].
  destruct (caught e); [apply keeps_ret | apply keeps_raise].
Qed.

(** ** Fields that are not lists *)

Lemma setitem_field_scalars {A : Type} (get : PingLatest -> list A)
    (set : list A -> PingLatest -> PingLatest) idx v self :
  (forall l s, scalars (set l s) = scalars s) ->
  scalars (snd (setitem_field get set idx v self)) = scalars self.
Proof.
  intros Hset. unfold setitem_field.
  destruct idx as [i|]; [|done]. destruct (Py.setitem (get self) i v); cbn; auto.
Qed.

Lemma setitem_field_terminates {A : Type} (get : PingLatest -> list A)
    (set : list A -> PingLatest -> PingLatest) idx v self :
  fst (setitem_field get set idx v self) <> OutOfFuel.
Proof.
  unfold setitem_field.
  destruct idx as [i|]; [|done]. by destruct (Py.setitem (get self) i v).
Qed.

Ltac step_setitem E :=
  match goal with
  | |- context [setitem_field ?g ?s ?i ?v ?self] =>
      let H1 := fresh "Hsc" in let H2 := fresh "Hterm" in
      pose proof (setitem_field_scalars g s i v self (fun _ _ => eq_refl)) as H1;
      pose proof (setitem_field_terminates g s i v self) as H2;
      destruct (setitem_field g s i v self) as [[[]|?|] ?] eqn:E;
      cbn [fst snd] in H1, H2; try done; try (cbn [fst snd]; congruence)
  end.

Ltac step_add_timedelta :=
  match goal with
  | |- context [add_timedelta ?a ?b ?st] =>
      destruct (add_timedelta_cases a b st) as [-> | ->];
      [|try done; try (cbn [fst snd]; congruence)]
  end.

Lemma gap_loop_scalars (fuel : nat) (dt start_dt : datetime) (self : PingLatest) :
  scalars (snd (gap_loop fuel dt start_dt self)) = scalars self.
Proof.
  revert start_dt self. induction fuel as [|fuel IH]; intros start_dt self; [done|].
  cbn [gap_loop]. destruct (start_dt <? dt); [|done].
  unfold bind.
  step_setitem E1. step_setitem E2. step_setitem E3.
  step_add_timedelta.
  match goal with
  | |- context [gap_loop fuel dt ?s ?st] =>
      specialize (IH s st); destruct (gap_loop fuel dt s st) as [[|?|] ?]
  end; cbn in *; congruence.
Qed.

(** The walk always terminates: given the fuel of [gap_fuel], the model never
    reports [OutOfFuel], also on a document whose lists are too short. *)
Lemma gap_loop_terminates (fuel : nat) (dt start_dt : datetime) (self : PingLatest) :
  (gap_count dt start_dt < fuel)%nat ->
  fst (gap_loop fuel dt start_dt self) <> OutOfFuel.
Proof.
  revert start_dt self.
  induction fuel as [|fuel IH]; intros start_dt self Hfuel; [lia|].
  cbn [gap_loop]. destruct (start_dt <? dt) eqn:Hcond; [|done].
  apply Z.ltb_lt in Hcond. rewrite (gap_count_step dt start_dt Hcond) in Hfuel.
  unfold bind.
  step_setitem E1. step_setitem E2. step_setitem E3.
  step_add_timedelta.
  match goal with
  | |- context [gap_loop fuel dt ?s ?st] =>
      specialize (IH s st ltac:(lia)); destruct (gap_loop fuel dt s st) as [[|?|] ?]
  end; cbn in *; congruence.
Qed.

(** ** [set_ping_data] on a well-formed document

    [walk_in_range] keeps the hour steps among the datetimes; without it the
    walk may stop with OverflowError ([gap_fill_cases],
    [set_ping_data_cases]). *)

Lemma set_latest_well_formed dt rt rc os self :
  well_formed self -> well_formed (set_latest dt rt rc os self).
Proof. unfold set_latest. by destruct os. Qed.

Lemma gap_filled_well_formed dt self :
  well_formed self -> well_formed (gap_filled dt self).
Proof.
  unfold gap_filled. destruct (updated self); [|done]. apply null_walk_well_formed.
Qed.

#[local] Hint Resolve set_latest_well_formed gap_filled_well_formed : wf.

Lemma set_ping_data_stale dt rt rc os self :
  is_stale (updated self) dt = true ->
  set_ping_data dt rt rc os self = (Ok None, self).
Proof. intros Hst. unfold set_ping_data, bind, gets. cbn. by rewrite Hst. Qed.

Lemma walk_in_range_intro (self : PingLatest) (u dt : datetime) :
  updated self = Some u -> 0 <= u -> dt + timedelta_hours 1 <= datetime_max ->
  walk_in_range self dt.
Proof. intros Hupd H0 Hmax. unfold walk_in_range. by rewrite Hupd. Qed.

Lemma walk_in_range_unset (self : PingLatest) (dt : datetime) :
  updated self = None -> walk_in_range self dt.
Proof. intros Hupd. unfold walk_in_range. by rewrite Hupd. Qed.

Lemma gap_fill_run dt self :
  well_formed self -> is_stale (updated self) dt = false -> walk_in_range self dt ->
  gap_fill dt (updated self) self
  = (Ok (match updated self with
         | Some u => gap_count dt (u + timedelta_hours 1)
         | None => O
         end), gap_filled dt self).
Proof.
  intros Hwf Hst Hrange. unfold gap_fill, gap_filled, walk_in_range in *.
  destruct (updated self) as [u|]; [|done]. destruct Hrange as [H0 Hmax].
  cbn in Hst. pose proof hour_pos as Hp.
  unfold bind. rewrite add_timedelta_run by (unfold timedelta_hours in *; lia).
  apply gap_loop_run; [done | apply gap_fuel_enough | |done].
  unfold timedelta_hours. lia.
Qed.

(** On a well-formed document the walk of a call runs to its end or stops
    with OverflowError after some of its steps. *)
Lemma gap_fill_cases dt self :
  well_formed self ->
  gap_fill dt (updated self) self
  = (Ok (match updated self with
         | Some u => gap_count dt (u + timedelta_hours 1)
         | None => O
         end), gap_filled dt self) \/
  exists (u : datetime) (m : nat),
    updated self = Some u /\
    gap_fill dt (updated self) self
    = (Raise OverflowError, null_walk m (u + timedelta_hours 1) self).
Proof.
  intros Hwf. unfold gap_fill, gap_filled.
  destruct (updated self) as [u|]; [|by left].
  unfold bind.
  destruct (add_timedelta_cases u (timedelta_hours 1) self) as [-> | ->].
  - destruct (gap_loop_cases (gap_fuel dt (u + timedelta_hours 1)) dt
                (u + timedelta_hours 1) self Hwf (gap_fuel_enough _ _)) as [-> | [m ->]].
    + by left.
    + right. by exists u, m.
  - right. by exists u, O.
Qed.

(** Lines 119-132 on a well-formed document. *)
Lemma set_latest_and_write dt rt rc os s :
  well_formed s ->
  (modify (with_updated (Some dt)) ;;
   modify (with_last_response_time rt) ;;
   modify (with_last_response_code (Some rc)) ;;
   modify (with_last_operational_status (Some os)) ;;
   (if os then modify (with_last_good_time (Some dt)) else ret tt) ;;
   setitem_field response_times with_response_times (get_index (Some dt)) rt ;;
   setitem_field response_codes with_response_codes (get_index (Some dt)) (Some rc) ;;
   setitem_field operational_statuses with_operational_statuses
     (get_index (Some dt)) (Some os) ;;
   ret (get_index (Some dt)))%py s
  = (Ok (Some (slot dt)),
     store (Z.to_nat (slot dt)) rt (Some rc) (Some os) (set_latest dt rt rc os s)).
Proof.
  intros Hs. unfold bind at 1 2 3 4 5, modify. unfold set_latest.
  destruct os; cbn [ret]; rewrite get_index_slot;
    rewrite write_slot_run by eauto with wf; done.
Qed.

Lemma set_ping_data_run dt rt rc os self :
  well_formed self -> is_stale (updated self) dt = false -> walk_in_range self dt ->
  set_ping_data dt rt rc os self
  = (Ok (Some (slot dt)),
     store (Z.to_nat (slot dt)) rt (Some rc) (Some os)
       (set_latest dt rt rc os (gap_filled dt self))).
Proof.
  intros Hwf Hst Hrange. unfold set_ping_data. unfold bind at 1. unfold gets at 1.
  rewrite Hst. unfold bind at 1. rewrite gap_fill_run by done.
  apply set_latest_and_write. by apply gap_filled_well_formed.
Qed.

(** Every way a call that is not stale can end on a well-formed document:
    the sample is recorded after the full walk, or the walk stopped with
    OverflowError and nothing but absent slots was written. *)
Lemma set_ping_data_cases dt rt rc os self :
  well_formed self -> is_stale (updated self) dt = false ->
  set_ping_data dt rt rc os self
  = (Ok (Some (slot dt)),
     store (Z.to_nat (slot dt)) rt (Some rc) (Some os)
       (set_latest dt rt rc os (gap_filled dt self))) \/
  exists (u : datetime) (m : nat),
    updated self = Some u /\
    set_ping_data dt rt rc os self
    = (Raise OverflowError, null_walk m (u + timedelta_hours 1) self).
Proof.
  intros Hwf Hst.
  destruct (set_ping_data dt rt rc os self) as [r s'] eqn:Hcall.
  unfold set_ping_data in Hcall. unfold bind at 1 in Hcall. unfold gets at 1 in Hcall.
  rewrite Hst in Hcall. unfold bind at 1 in Hcall.
  destruct (gap_fill_cases dt self Hwf) as [Hg|(u & m & Hu & Hg)]; rewrite Hg in Hcall.
  - left. rewrite <- Hcall. apply set_latest_and_write. by apply gap_filled_well_formed.
  - right. exists u, m. split; [done|]. by rewrite <- Hcall.
Qed.

Lemma triple_store i a b c self j :
  well_formed self -> (i < 168)%nat ->
  triple (store i a b c self) j
  = if decide (i = j) then (Some a, Some b, Some c) else triple self j.
Proof.
  intros (Ht & Hc & Ho) Hi. unfold triple, store. cbn.
  case_decide as Hij.
  - subst j. rewrite !list_lookup_insert_eq by lia. done.
  - rewrite !list_lookup_insert_ne by done. done.
Qed.

Lemma triple_set_latest dt rt rc os self j :
  triple (set_latest dt rt rc os self) j = triple self j.
Proof. unfold set_latest. by destruct os. Qed.

(** A slot the walk does not visit keeps its triple. *)
Lemma null_walk_other (n : nat) (start_dt : datetime) (self : PingLatest) (j : nat) :
  well_formed self ->
  (forall k, (k < n)%nat ->
     Z.to_nat (slot (start_dt + timedelta_hours (Z.of_nat k))) <> j) ->
  triple (null_walk n start_dt self) j = triple self j.
Proof.
  revert start_dt self.
  induction n as [|n IH]; intros start_dt self Hwf Hmiss; [done|].
  cbn [null_walk]. rewrite IH.
  - rewrite triple_store by eauto with wf.
    case_decide as Heq; [|done].
    exfalso. apply (Hmiss O); [lia|].
    rewrite <- Heq. f_equal. f_equal. unfold timedelta_hours. lia.
  - by apply store_well_formed.
  - intros k Hk. specialize (Hmiss (S k) ltac:(lia)).
    replace (start_dt + timedelta_hours 1 + timedelta_hours (Z.of_nat k))
      with (start_dt + timedelta_hours (Z.of_nat (S k)))
      by (unfold timedelta_hours; lia).
    done.
Qed.

Lemma null_walk_absent_stays (n : nat) (start_dt : datetime) (self : PingLatest)
    (j : nat) :
  well_formed self -> triple self j = absent_triple ->
  triple (null_walk n start_dt self) j = absent_triple.
Proof.
  revert start_dt self.
  induction n as [|n IH]; intros start_dt self Hwf Habs; [done|].
  cbn [null_walk]. apply IH; [by apply store_well_formed|].
  rewrite triple_store by eauto with wf. by case_decide.
Qed.

(** A slot the walk visits ends up absent. *)
Lemma null_walk_hit (n k : nat) (start_dt : datetime) (self : PingLatest) :
  well_formed self -> (k < n)%nat ->
  triple (null_walk n start_dt self)
    (Z.to_nat (slot (start_dt + timedelta_hours (Z.of_nat k)))) = absent_triple.
Proof.
  revert k start_dt self.
  induction n as [|n IH]; intros k start_dt self Hwf Hk; [lia|].
  cbn [null_walk]. destruct k as [|k].
  - apply null_walk_absent_stays; [by apply store_well_formed|].
    rewrite triple_store by eauto with wf.
    replace (start_dt + timedelta_hours (Z.of_nat 0)) with start_dt
      by (unfold timedelta_hours; lia).
    by case_decide.
  - replace (start_dt + timedelta_hours (Z.of_nat (S k)))
      with (start_dt + timedelta_hours 1 + timedelta_hours (Z.of_nat k))
      by (unfold timedelta_hours; lia).
    apply IH; [by apply store_well_formed | lia].
Qed.

Lemma gap_count_hours (dt u : datetime) :
  u <= dt ->
  hours_of dt - hours_of u - 1 <= Z.of_nat (gap_count dt (u + timedelta_hours 1))
    <= hours_of dt - hours_of u.
Proof.
  intros Hle. unfold gap_count, hours_of, timedelta_hours, MICROSECONDS_PER_HOUR.
  Z.to_euclidean_division_equations; lia.
Qed.

Lemma slot_add_hours (dt : datetime) (k : Z) :
  0 <= k -> slot dt + k < 168 -> slot (dt + timedelta_hours k) = slot dt + k.
Proof.
  intros Hk Hlt. rewrite !slot_hours_of, hours_of_add in *.
  Z.to_euclidean_division_equations; lia.
Qed.

Lemma same_week_hours (u dt : datetime) (d : Z) :
  week_of u = week_of dt -> slot dt = slot u + d ->
  hours_of dt = hours_of u + d.
Proof.
  rewrite !week_of_hours, !slot_hours_of.
  Z.to_euclidean_division_equations; lia.
Qed.

(** ** C1: gap filling *)

(** C1. A document last updated at [u], in hour-of-week [H], receives a
    sample at [dt], in hour-of-week [H + 3] of the same calendar week (so
    that [u <= dt]); [u] is a datetime and [dt] lies at least one hour before
    [datetime.max], so that the hour steps of the walk exist. The call
    returns slot [H + 3]; afterwards slots [H + 1] and [H + 2] hold the
    absent triple, slot [H] is unchanged, slot [H + 3] holds the new sample,
    and every other slot is unchanged. *)
Theorem gap_filling_exact (self : PingLatest) (u dt : datetime)
    (rt : option Z) (rc : Z) (os : bool) (H : Z) :
  well_formed self ->
  updated self = Some u ->
  get_index (Some u) = Some H ->
  get_index (Some dt) = Some (H + 3) ->
  week_of u = week_of dt ->
  0 <= u -> dt + timedelta_hours 1 <= datetime_max ->
  let self' := state_after (set_ping_data dt rt rc os) self in
  u <= dt /\
  result_of (set_ping_data dt rt rc os) self = Ok (Some (H + 3)) /\
  triple self' (Z.to_nat (H + 1)) = absent_triple /\
  triple self' (Z.to_nat (H + 2)) = absent_triple /\
  triple self' (Z.to_nat H) = triple self (Z.to_nat H) /\
  triple self' (Z.to_nat (H + 3)) = (Some rt, Some (Some rc), Some (Some os)) /\
  forall i : nat,
    i <> Z.to_nat (H + 1) -> i <> Z.to_nat (H + 2) -> i <> Z.to_nat (H + 3) ->
    triple self' i = triple self i.
Proof.
  intros Hwf Hupd Hu Hdt Hweek H0 Hmax self'.
  pose proof (walk_in_range_intro self u dt Hupd H0 Hmax) as Hrange.
  rewrite get_index_slot in Hu, Hdt. injection Hu as Hu. injection Hdt as Hdt.
  pose proof (slot_range u) as Hru. pose proof (slot_range dt) as Hrd.
  assert (hours_of dt = hours_of u + 3) as Hhours
    by (apply same_week_hours; [done | lia]).
  assert (u < dt) as Hlt by (apply hours_of_lt; lia).
  assert (is_stale (updated self) dt = false) as Hst
    by (rewrite Hupd; cbn; lia).
  pose proof (gap_count_hours dt u ltac:(lia)) as Hn.
  assert (forall k, 0 <= k <= 2 -> slot (u + timedelta_hours 1 + timedelta_hours k) = H + 1 + k)
    as Hslots.
  { intros k Hk.
    replace (u + timedelta_hours 1 + timedelta_hours k)
      with (u + timedelta_hours (1 + k)) by (unfold timedelta_hours; lia).
    rewrite slot_add_hours; lia. }
  assert (forall j, triple self' j
            = if decide (Z.to_nat (slot dt) = j)
              then (Some rt, Some (Some rc), Some (Some os))
              else triple (gap_filled dt self) j) as Htriple.
  { intros j. unfold self', state_after. rewrite set_ping_data_run by done. cbn [snd].
    rewrite triple_store
      by eauto with wf.
    case_decide; [done|]. apply triple_set_latest. }
  assert (forall j, j <> Z.to_nat (H + 1) -> j <> Z.to_nat (H + 2) ->
            j <> Z.to_nat (H + 3) -> triple (gap_filled dt self) j = triple self j)
    as Hother.
  { intros j H1 H2 H3. unfold gap_filled. rewrite Hupd.
    apply null_walk_other; [done|]. intros k Hk.
    rewrite Hslots by lia.
    assert (k = 0 \/ k = 1 \/ k = 2)%nat as [->|[->| ->]] by lia; cbn; lia. }
  assert (forall (k j : nat), (k < 2)%nat -> j = Z.to_nat (H + 1 + Z.of_nat k) ->
            triple (gap_filled dt self) j = absent_triple)
    as Hhit.
  { intros k j Hk ->. unfold gap_filled. rewrite Hupd.
    rewrite <- Hslots by lia. apply null_walk_hit; [done | lia]. }
  split; [lia|]. split.
  { unfold result_of. rewrite set_ping_data_run by done. cbn. by rewrite Hdt. }
  split.
  { rewrite Htriple. case_decide; [lia|]. apply (Hhit 0%nat); lia. }
  split.
  { rewrite Htriple. case_decide; [lia|]. apply (Hhit 1%nat); lia. }
  split.
  { rewrite Htriple. case_decide; [lia|]. apply Hother; lia. }
  split.
  { rewrite Htriple. case_decide; [done|]. lia. }
  intros i H1 H2 H3. rewrite Htriple. case_decide; [lia|]. by apply Hother.
Qed.

Lemma gap_filling_exact_witness :
  let self := state_after (set_ping_data mon_0015 (Some 120) 200 true) (default_document 0) in
  let self' := state_after (set_ping_data mon_0320 None (-1) false) self in
  mon_0015 <= mon_0320 /\
  result_of (set_ping_data mon_0320 None (-1) false) self = Ok (Some (0 + 3)) /\
  triple self' (Z.to_nat (0 + 1)) = absent_triple /\
  triple self' (Z.to_nat (0 + 2)) = absent_triple /\
  triple self' (Z.to_nat 0) = triple self (Z.to_nat 0) /\
  triple self' (Z.to_nat (0 + 3)) = (Some None, Some (Some (-1)), Some (Some false)) /\
  forall i : nat,
    i <> Z.to_nat (0 + 1) -> i <> Z.to_nat (0 + 2) -> i <> Z.to_nat (0 + 3) ->
    triple self' i = triple self i.
Proof.
  intros self.
  apply (gap_filling_exact self mon_0015 mon_0320 None (-1) false 0).
  - vm_compute. repeat split.
  - reflexivity.
  - reflexivity.
  - reflexivity.
  - reflexivity.
  - vm_compute. discriminate.
  - vm_compute. discriminate.
Defined.

(** ** Calls on an arbitrary document *)

Lemma gap_fill_scalars dt start_dt self :
  scalars (snd (gap_fill dt start_dt self)) = scalars self.
Proof.
  unfold gap_fill. destruct start_dt as [u|]; [|done]. unfold bind.
  destruct (add_timedelta_cases u (timedelta_hours 1) self) as [-> | ->]; [|done].
  apply gap_loop_scalars.
Qed.

Lemma gap_fill_terminates dt start_dt self :
  fst (gap_fill dt start_dt self) <> OutOfFuel.
Proof.
  unfold gap_fill. destruct start_dt as [u|]; [|done]. unfold bind.
  destruct (add_timedelta_cases u (timedelta_hours 1) self) as [-> | ->]; [|done].
  apply gap_loop_terminates, gap_fuel_enough.
Qed.

(** Whatever the lists look like, a call either leaves the other fields
    alone (stale sample, or the walk raised) or sets them as lines 119-124
    say; and it never runs out of fuel. *)
Lemma set_ping_data_scalars dt rt rc os self :
  let self' := state_after (set_ping_data dt rt rc os) self in
  result_of (set_ping_data dt rt rc os) self <> OutOfFuel /\
  (scalars self' = scalars self \/
   (is_stale (updated self) dt = false /\
    scalars self' = scalars (set_latest dt rt rc os self))).
Proof.
  unfold state_after, result_of.
  set (Post := fun p : result (option Z) * PingLatest =>
    fst p <> OutOfFuel /\
    (scalars (snd p) = scalars self \/
     (is_stale (updated self) dt = false /\
      scalars (snd p) = scalars (set_latest dt rt rc os self)))).
  change (Post (set_ping_data dt rt rc os self)).
  unfold set_ping_data. unfold bind at 1. unfold gets.
  destruct (is_stale (updated self) dt) eqn:Hst; [by subst Post; cbn; auto|].
  unfold bind at 1.
  pose proof (gap_fill_scalars dt (updated self) self) as Hsc.
  pose proof (gap_fill_terminates dt (updated self) self) as Hterm.
  destruct (gap_fill dt (updated self) self) as [[n|e|] s1];
    cbn [fst snd] in Hsc, Hterm; [|by subst Post; cbn; auto|done].
  unfold bind, modify.
  assert (scalars (set_latest dt rt rc os s1) = scalars (set_latest dt rt rc os self))
    as Hlatest.
  { unfold scalars, set_latest in *. destruct os; cbn in *; congruence. }
  assert (forall r s, scalars s = scalars (set_latest dt rt rc os s1) ->
            r <> OutOfFuel -> Post (r, s)) as Hpost.
  { intros r s Hs Hr. subst Post. cbn [fst snd].
    split; [done | right; split; [done | congruence]]. }
  clearbody Post. unfold set_latest in Hpost.
  destruct os; cbn [ret];
    step_setitem E1; try (apply Hpost; [congruence | done]);
    step_setitem E2; try (apply Hpost; [congruence | done]);
    step_setitem E3; apply Hpost; solve [congruence | done].
Qed.

(** A call that returns, and was not stale, has set the "latest" fields. *)
Lemma set_ping_data_ok_scalars dt rt rc os self idx :
  result_of (set_ping_data dt rt rc os) self = Ok idx ->
  is_stale (updated self) dt = false ->
  scalars (state_after (set_ping_data dt rt rc os) self)
  = scalars (set_latest dt rt rc os self).
Proof.
  unfold state_after, result_of. intros Hres Hst.
  destruct (set_ping_data dt rt rc os self) as [r s'] eqn:Hcall. cbn in Hres. subst r.
  unfold set_ping_data in Hcall. unfold bind at 1 in Hcall. unfold gets in Hcall.
  rewrite Hst in Hcall. unfold bind at 1 in Hcall.
  pose proof (gap_fill_scalars dt (updated self) self) as Hsc.
  destruct (gap_fill dt (updated self) self) as [[n|e|] s1];
    cbn [fst snd] in Hsc; [|discriminate|discriminate].
  assert (scalars (set_latest dt rt rc os s1) = scalars (set_latest dt rt rc os self))
    as Hlatest.
  { unfold scalars, set_latest in *. destruct os; cbn in *; congruence. }
  rewrite <- Hlatest. clear Hlatest Hsc.
  assert (keeps scalars
    (setitem_field response_times with_response_times (get_index (Some dt)) rt ;;
     setitem_field response_codes with_response_codes (get_index (Some dt)) (Some rc) ;;
     setitem_field operational_statuses with_operational_statuses
       (get_index (Some dt)) (Some os) ;;
     ret (get_index (Some dt)))%py) as Hkeep.
  { repeat (apply keeps_bind; [intros s0; by apply setitem_field_scalars | intros _]).
    apply keeps_ret. }
  unfold bind at 1 2 3 4 5, modify in Hcall. unfold set_latest.
  destruct os; cbn [ret] in Hcall;
    match type of Hcall with
    | ?m ?st = _ => specialize (Hkeep st); rewrite Hcall in Hkeep; exact Hkeep
    end.
Qed.

(** ** C2: stale samples *)

Lemma updated_le_refl a : updated_le a a.
Proof. destruct a; cbn; lia. Qed.

Lemma updated_le_trans a b c : updated_le a b -> updated_le b c -> updated_le a c.
Proof. destruct a, b, c; cbn; try done; lia. Qed.

Lemma scalars_updated s1 s2 : scalars s1 = scalars s2 -> updated s1 = updated s2.
Proof. unfold scalars. congruence. Qed.

Lemma updated_set_latest dt rt rc os self :
  updated (set_latest dt rt rc os self) = Some dt.
Proof. unfold set_latest. by destruct os. Qed.

Lemma record_sample_updated (self : PingLatest) (c : sample) :
  updated_le (updated self) (updated (record_sample self c)).
Proof.
  unfold record_sample.
  destruct (set_ping_data_scalars (sample_dt c) (sample_response_time c)
              (sample_response_code c) (sample_operational_status c) self)
    as [_ [Hsame|[Hst Hset]]].
  - rewrite (scalars_updated _ _ Hsame). apply updated_le_refl.
  - rewrite (scalars_updated _ _ Hset), updated_set_latest.
    destruct (updated self) as [u|]; cbn in *; [lia | done].
Qed.

(** C2. A sample older than [updated] is dropped whole: the call returns
    [None] (no slot index) and the document is the very document it
    started from. Consequently [updated] never decreases along any sequence
    of [set_ping_data] calls, on any document. *)
Theorem stale_sample_dropped :
  (forall (self : PingLatest) (u dt : datetime) (rt : option Z) (rc : Z) (os : bool),
     updated self = Some u -> dt < u ->
     set_ping_data dt rt rc os self = (Ok None, self)) /\
  (forall (calls : list sample) (self : PingLatest),
     updated_le (updated self) (updated (record_all calls self))).
Proof.
  split.
  - intros self u dt rt rc os Hupd Hlt. apply set_ping_data_stale.
    rewrite Hupd. cbn. lia.
  - intros calls. unfold record_all.
    induction calls as [|c calls IH]; intros self; cbn [foldl].
    + apply updated_le_refl.
    + eapply updated_le_trans; [apply record_sample_updated | apply IH].
Qed.

Lemma stale_sample_dropped_witness :
  let self := state_after (set_ping_data mon_0320 (Some 120) 200 true) (default_document 0) in
  set_ping_data mon_0015 (Some 80) 500 false self = (Ok None, self).
Proof.
  intros self.
  apply (proj1 stale_sample_dropped self mon_0320 mon_0015 (Some 80) 500 false).
  - reflexivity.
  - reflexivity.
Defined.

(** ** C3: the triple invariant *)

Lemma triple_invariant_b_sound self :
  triple_invariant_b self = true -> triple_invariant self.
Proof.
  unfold triple_invariant_b. rewrite forallb_forall. intros Hall i Hi.
  apply Hall, in_seq. lia.
Qed.

Lemma store_absent_invariant i self :
  well_formed self -> (i < 168)%nat -> triple_invariant self ->
  triple_invariant (store i None None None self).
Proof.
  intros Hwf Hi Hinv j Hj. rewrite triple_store by done.
  case_decide; [done | by apply Hinv].
Qed.

Lemma null_walk_invariant (n : nat) (start_dt : datetime) (self : PingLatest) :
  well_formed self -> triple_invariant self ->
  triple_invariant (null_walk n start_dt self).
Proof.
  revert start_dt self. induction n as [|n IH]; intros start_dt self Hwf Hinv; [done|].
  cbn [null_walk]. apply IH; [by apply store_well_formed|].
  apply store_absent_invariant; [done | apply slot_nat_lt | done].
Qed.

Lemma gap_filled_invariant dt self :
  well_formed self -> triple_invariant self -> triple_invariant (gap_filled dt self).
Proof.
  unfold gap_filled. destruct (updated self); [|done]. apply null_walk_invariant.
Qed.

(** The triples after a call on a well-formed document whose walk stays
    among the datetimes. *)
Lemma triple_after_call dt rt rc os self j :
  well_formed self -> walk_in_range self dt ->
  triple (state_after (set_ping_data dt rt rc os) self) j
  = if is_stale (updated self) dt then triple self j
    else if decide (Z.to_nat (slot dt) = j)
         then (Some rt, Some (Some rc), Some (Some os))
         else triple (gap_filled dt self) j.
Proof.
  intros Hwf Hrange. unfold state_after.
  destruct (is_stale (updated self) dt) eqn:Hst.
  - by rewrite set_ping_data_stale.
  - rewrite set_ping_data_run by done. cbn [snd].
    rewrite triple_store
      by eauto with wf.
    case_decide; [done|]. apply triple_set_latest.
Qed.

Lemma well_formed_lengths self : well_formed self <-> lengths self = (168, 168, 168)%nat.
Proof.
  unfold well_formed, lengths. split.
  - by intros (-> & -> & ->).
  - by intros [= -> -> ->].
Qed.

Lemma set_ping_data_well_formed dt rt rc os self :
  well_formed self -> well_formed (state_after (set_ping_data dt rt rc os) self).
Proof.
  rewrite !well_formed_lengths. intros <-. apply keeps_lengths_set_ping_data.
Qed.

(** Every way a call can end on a well-formed document whose triples are
    all-absent or all-present: apart from the slot of a recorded sample, the
    triples stay so, also when the walk stops with OverflowError. *)
Lemma triple_invariant_after_call dt rt rc os self :
  well_formed self -> triple_invariant self ->
  forall i : nat, (i < 168)%nat ->
    all_or_none (triple (state_after (set_ping_data dt rt rc os) self) i) = true \/
    (i = Z.to_nat (slot dt) /\
     triple (state_after (set_ping_data dt rt rc os) self) i
     = (Some rt, Some (Some rc), Some (Some os))).
Proof.
  intros Hwf Hinv i Hi. unfold state_after.
  destruct (is_stale (updated self) dt) eqn:Hst.
  { rewrite set_ping_data_stale by done. left. by apply Hinv. }
  destruct (set_ping_data_cases dt rt rc os self Hwf Hst) as [-> | (u & m & Hu & ->)];
    cbn [snd].
  - rewrite triple_store by eauto with wf.
    case_decide as Hslot; [right; by split|].
    left. rewrite triple_set_latest. by apply gap_filled_invariant.
  - left. by apply null_walk_invariant.
Qed.

(** C3, as the code has it. On a well-formed document whose triples are all
    all-absent or all-present, a call with a present response time keeps
    that property at every index. A call with an absent response time (the
    failed-probe sample) keeps it at every index but the slot of [dt]; when
    that call is not dropped as stale and its walk stays among the
    datetimes, it writes the triple (absent, code, status) into that slot. *)
Theorem triple_invariant_preserved (self : PingLatest) (dt : datetime)
    (rt : option Z) (rc : Z) (os : bool) :
  well_formed self -> triple_invariant self ->
  let self' := state_after (set_ping_data dt rt rc os) self in
  well_formed self' /\
  (is_Some rt -> triple_invariant self') /\
  (forall i : nat, (i < 168)%nat -> i <> Z.to_nat (slot dt) ->
     all_or_none (triple self' i) = true) /\
  (rt = None -> is_stale (updated self) dt = false -> walk_in_range self dt ->
     triple self' (Z.to_nat (slot dt)) = (Some None, Some (Some rc), Some (Some os))).
Proof.
  intros Hwf Hinv self'.
  pose proof (triple_invariant_after_call dt rt rc os self Hwf Hinv) as Hcases.
  fold self' in Hcases.
  split; [by apply set_ping_data_well_formed|]. split; [|split].
  - intros [t ->] i Hi. destruct (Hcases i Hi) as [Hok|[_ ->]]; done.
  - intros i Hi Hne. destruct (Hcases i Hi) as [Hok|[Heq _]]; done.
  - intros -> Hst Hrange. unfold self'. rewrite triple_after_call, Hst by done.
    by case_decide.
Qed.

Lemma default_document_well_formed now : well_formed (default_document now).
Proof. by cbn. Qed.

Lemma default_document_invariant now : triple_invariant (default_document now).
Proof. by apply triple_invariant_b_sound. Qed.

Lemma triple_invariant_preserved_witness :
  let self := default_document 0 in
  let self' := state_after (set_ping_data mon_0015 (Some 120) 200 true) self in
  well_formed self' /\
  (is_Some (Some 120) -> triple_invariant self') /\
  (forall i : nat, (i < 168)%nat -> i <> Z.to_nat (slot mon_0015) ->
     all_or_none (triple self' i) = true) /\
  (Some 120 = None -> is_stale (updated self) mon_0015 = false ->
     walk_in_range self mon_0015 ->
     triple self' (Z.to_nat (slot mon_0015))
     = (Some None, Some (Some 200), Some (Some true))).
Proof.
  intros self.
  apply (triple_invariant_preserved self mon_0015 (Some 120) 200 true).
  - vm_compute. repeat split.
  - apply triple_invariant_b_sound. vm_compute. reflexivity.
Defined.

(** C3 as stated fails: the failed-probe sample, recorded on the freshly
    created document, leaves slot 0 with an absent response time next to a
    present code and status. *)
Lemma triple_invariant_broken_by_failed_probe :
  let self := default_document 0 in
  well_formed self /\ triple_invariant self /\
  ~ triple_invariant (state_after (set_ping_data mon_0015 None (-1) false) self).
Proof.
  split; [apply default_document_well_formed|].
  split; [apply default_document_invariant|].
  intros Hinv. specialize (Hinv 0%nat ltac:(lia)). vm_compute in Hinv. discriminate.
Qed.

(** ** [ping_service] *)

Lemma probe_pinged s rt rc self :
  ping s 15 = Pinged rt rc ->
  probe s self = (Ok (Some rt, rc, Py.in_ rc [200; 400]), self).
Proof. intros Hp. unfold probe. rewrite Hp. by destruct (Py.in_ rc [200; 400]). Qed.

Lemma probe_caught s e self :
  ping s 15 = PingRaises e -> caught e = true ->
  probe s self = (Ok (None, -1, false), self).
Proof. intros Hp Hc. unfold probe. by rewrite Hp, Hc. Qed.

Lemma probe_uncaught s e self :
  ping s 15 = PingRaises e -> caught e = false ->
  probe s self = (Raise e, self).
Proof. intros Hp Hc. unfold probe. by rewrite Hp, Hc. Qed.

Lemma probe_state s self : snd (probe s self) = self.
Proof.
  unfold probe. destruct (ping s 15) as [rt rc|e]; [done|]. by destruct (caught e).
Qed.

Lemma ping_service_run s utcnow self rt rc os :
  result_of (probe s) self = Ok (rt, rc, os) ->
  ping_service (Some s) utcnow self
  = finish_ping (last_operational_status self) (get_index (updated self))
      utcnow rt rc os self.
Proof.
  unfold result_of. intros Hp. pose proof (probe_state s self) as Hs.
  unfold ping_service, finish_ping. unfold bind at 1 2 3. unfold gets.
  destruct (probe s self) as [r s']. cbn in Hp, Hs. subst. done.
Qed.

Lemma ping_service_raises s utcnow self e :
  result_of (probe s) self = Raise e ->
  ping_service (Some s) utcnow self = (Raise e, self).
Proof.
  unfold result_of. intros Hp. pose proof (probe_state s self) as Hs.
  unfold ping_service. unfold bind at 1 2 3. unfold gets.
  destruct (probe s self) as [r s']. cbn in Hp, Hs. subst. done.
Qed.

Lemma finish_ping_stale last last_idx dt rt rc os self :
  is_stale (updated self) dt = true ->
  finish_ping last last_idx dt rt rc os self
  = (Ok (Py.ne_int last_idx None, Py.and_ last (Some (Py.ne_bool last (Some os)))), self).
Proof. intros Hst. unfold finish_ping, bind. by rewrite set_ping_data_stale. Qed.

Lemma finish_ping_run last last_idx dt rt rc os self :
  well_formed self -> is_stale (updated self) dt = false -> walk_in_range self dt ->
  finish_ping last last_idx dt rt rc os self
  = (Ok (Py.ne_int last_idx (Some (slot dt)),
         Py.and_ last (Some (Py.ne_bool last (Some os)))),
     store (Z.to_nat (slot dt)) rt (Some rc) (Some os)
       (set_latest dt rt rc os (gap_filled dt self))).
Proof.
  intros Hwf Hst Hrange. unfold finish_ping, bind. by rewrite set_ping_data_run.
Qed.

(** ** C4: flip detection *)

(** C4. When the probe yields a sample (it returned, or raised one of the
    caught exceptions) on a well-formed document, and the walk stays among the
    datetimes, [ping_service] returns, and its second component is truthy
    exactly when the previous [last_operational_status] was truthy and
    differs from the newly classified status [os]. From true to false it is
    [True]; from false to true it is [False]. From an unset previous status
    it is not [False]: it is the [None] that [last and ...] hands back,
    whatever the new status. *)
Theorem flip_detection_asymmetric (self : PingLatest) (s : Service)
    (utcnow : datetime) (rt : option Z) (rc : Z) (os : bool) :
  well_formed self ->
  walk_in_range self utcnow ->
  result_of (probe s) self = Ok (rt, rc, os) ->
  let last := last_operational_status self in
  exists (is_new : bool) (flipped : option bool),
    result_of (ping_service (Some s) utcnow) self = Ok (is_new, flipped) /\
    (Py.truthy flipped = true <->
       Py.truthy last = true /\ Py.ne_bool last (Some os) = true) /\
    (last = Some true -> os = false -> flipped = Some true) /\
    (last = Some false -> os = true -> flipped = Some false) /\
    (last = None -> flipped = None /\ flipped <> Some false).
Proof.
  intros Hwf Hrange Hprobe last.
  exists (Py.ne_int (get_index (updated self))
            (if is_stale (updated self) utcnow then None else Some (slot utcnow))).
  exists (Py.and_ last (Some (Py.ne_bool last (Some os)))).
  split.
  { unfold result_of. rewrite (ping_service_run _ _ _ _ _ _ Hprobe).
    destruct (is_stale (updated self) utcnow) eqn:Hst.
    - by rewrite finish_ping_stale.
    - by rewrite finish_ping_run. }
  split; [|split; [|split]].
  - destruct last as [[]|], os; cbn; intuition congruence.
  - by intros -> ->.
  - by intros -> ->.
  - by intros ->.
Qed.

(** C4 at its failing input: the first ping of a freshly created document.
    The previous status is unset and the flag returned is [None], where the
    docstring of [ping_service] promises a boolean. *)
Lemma flip_detection_asymmetric_witness :
  let self := default_document 0 in
  exists (is_new : bool) (flipped : option bool),
    result_of (ping_service (Some failing_service) mon_0320) self = Ok (is_new, flipped) /\
    (Py.truthy flipped = true <->
       Py.truthy (last_operational_status self) = true /\
       Py.ne_bool (last_operational_status self) (Some false) = true) /\
    (last_operational_status self = Some true -> false = false -> flipped = Some true) /\
    (last_operational_status self = Some false -> false = true -> flipped = Some false) /\
    (last_operational_status self = None -> flipped = None /\ flipped <> Some false).
Proof.
  intros self.
  apply (flip_detection_asymmetric self failing_service mon_0320 None (-1) false).
  - vm_compute. repeat split.
  - exact I.
  - reflexivity.
Defined.

(** ** C5: chronological rotation *)

Lemma slice_in_range {A : Type} (l : list A) (a b : nat) :
  (a <= b <= length l)%nat ->
  Py.slice l (Z.of_nat a) (Z.of_nat b) = take (b - a) (drop a l).
Proof.
  intros Hab. unfold Py.slice, Py.clamp.
  destruct (Z.ltb_spec (Z.of_nat a) 0) as [|_]; [lia|].
  destruct (Z.ltb_spec (Z.of_nat b) 0) as [|_]; [lia|].
  rewrite !Z.min_l by lia. f_equal; [lia | f_equal; lia].
Qed.

Lemma lookups_take_drop {A : Type} (l : list A) (a n : nat) :
  (a + n <= length l)%nat ->
  omap (fun k => l !! k) (seq a n) = take n (drop a l).
Proof.
  revert a. induction n as [|n IH]; intros a Hlen; [done|].
  destruct (lookup_lt_is_Some_2 l a ltac:(lia)) as [x Hx].
  cbn [seq omap list_omap]. rewrite Hx, (drop_S _ _ _ Hx). cbn [take].
  f_equal. apply IH. lia.
Qed.

Lemma elements_take_drop {A : Type} (l : list A) (a b : nat) :
  (a <= S b)%nat -> (b < length l)%nat ->
  elements l a b = take (S b - a) (drop a l).
Proof. intros Ha Hb. unfold elements. apply lookups_take_drop. lia. Qed.

(** The rotated view of one array of 168 slots. *)
Lemma rotated_view {A : Type} (l : list A) (idx : Z) :
  length l = 168%nat -> 0 <= idx < 167 ->
  let view := Py.slice l (idx + 1) 168 ++ Py.slice l 0 (idx + 1) in
  view = elements l (Z.to_nat (idx + 1)) 167 ++ elements l 0 (Z.to_nat idx) /\
  view = rotate (Z.to_nat (idx + 1)) l.
Proof.
  intros Hlen Hidx view.
  assert (view = drop (Z.to_nat (idx + 1)) l ++ take (Z.to_nat (idx + 1)) l) as ->.
  { subst view.
    replace (idx + 1) with (Z.of_nat (Z.to_nat (idx + 1))) at 1 2 by lia.
    change 168 with (Z.of_nat 168). change 0 with (Z.of_nat 0).
    rewrite !slice_in_range by lia.
    rewrite take_ge by (rewrite length_drop; lia).
    rewrite drop_0. f_equal. f_equal. lia. }
  split.
  - rewrite !elements_take_drop by lia.
    rewrite (take_ge (drop (Z.to_nat (idx + 1)) l)) by (rewrite length_drop; lia).
    rewrite drop_0. f_equal. f_equal. lia.
  - unfold rotate. rewrite Hlen.
    by rewrite (Nat.mod_small (Z.to_nat (idx + 1)) 168) by lia.
Qed.

Lemma rotate_full {A : Type} (l : list A) : rotate (length l) l = l.
Proof.
  unfold rotate. destruct l as [|x l]; [done|].
  rewrite Nat.Div0.mod_same. cbn. by rewrite app_nil_r.
Qed.

(** C5. On a well-formed document, with [idx] the slot of now,
    [get_current_data] returns the two arrays as they are when [idx = 167];
    otherwise it returns, for each, elements [idx+1] through 167 followed by
    elements 0 through [idx]. In both cases each returned array is the left
    rotation of the stored one by [idx+1], the same amount for both, and the
    document is not changed. *)
Theorem chronological_rotation (self : PingLatest) (utcnow : datetime) :
  well_formed self ->
  let idx := slot utcnow in
  let rts := response_times self in
  let oss := operational_statuses self in
  exists times statuses,
    get_current_data utcnow self = (Ok (times, statuses), self) /\
    (idx = 167 -> times = rts /\ statuses = oss) /\
    (idx <> 167 ->
       times = elements rts (Z.to_nat (idx + 1)) 167 ++ elements rts 0 (Z.to_nat idx) /\
       statuses = elements oss (Z.to_nat (idx + 1)) 167 ++ elements oss 0 (Z.to_nat idx)) /\
    times = rotate (Z.to_nat (idx + 1)) rts /\
    statuses = rotate (Z.to_nat (idx + 1)) oss.
Proof.
  intros (Ht & Hc & Ho) idx rts oss. pose proof (slot_range utcnow) as Hr.
  unfold get_current_data. rewrite get_index_slot. fold idx.
  unfold bind, gets. fold rts oss.
  destruct (Z.eqb_spec idx 167) as [Heq|Hne].
  - exists rts, oss. rewrite Heq. change (Z.to_nat (167 + 1)) with 168%nat.
    assert (rotate 168 rts = rts) as Hrt by (rewrite <- Ht; apply rotate_full).
    assert (rotate 168 oss = oss) as Hro by (rewrite <- Ho; apply rotate_full).
    rewrite Hrt, Hro. repeat split; done.
  - destruct (rotated_view rts idx Ht ltac:(lia)) as [Ht1 Ht2].
    destruct (rotated_view oss idx Ho ltac:(lia)) as [Ho1 Ho2].
    eexists _, _. split; [reflexivity|]. repeat split; done.
Qed.

Lemma chronological_rotation_witness :
  let self := state_after (ping_service (Some good_service) mon_0015) (default_document 0) in
  let idx := slot mon_0320 in
  let rts := response_times self in
  let oss := operational_statuses self in
  exists times statuses,
    get_current_data mon_0320 self = (Ok (times, statuses), self) /\
    (idx = 167 -> times = rts /\ statuses = oss) /\
    (idx <> 167 ->
       times = elements rts (Z.to_nat (idx + 1)) 167 ++ elements rts 0 (Z.to_nat idx) /\
       statuses = elements oss (Z.to_nat (idx + 1)) 167 ++ elements oss 0 (Z.to_nat idx)) /\
    times = rotate (Z.to_nat (idx + 1)) rts /\
    statuses = rotate (Z.to_nat (idx + 1)) oss.
Proof.
  intros self.
  apply (chronological_rotation self mon_0320).
  vm_compute. repeat split.
Defined.

Example rotation_at_slot_0 :
  let self := state_after (ping_service (Some good_service) mon_0015) (default_document 0) in
  fst <$> (match result_of (get_current_data mon_0015) self with
           | Ok v => Some v | _ => None end)
  = Some (replicate 167 None ++ [Some 120]).
Proof. vm_compute. reflexivity. Qed.

(** ** C6: classification *)

Lemma in_200_400 (rc : Z) : Py.in_ rc [200; 400] = true <-> rc = 200 \/ rc = 400.
Proof. unfold Py.in_. cbn. lia. Qed.

Lemma last_status_store i a b c self :
  last_operational_status (store i a b c self) = last_operational_status self.
Proof. done. Qed.

Lemma last_status_set_latest dt rt rc os self :
  last_operational_status (set_latest dt rt rc os self) = Some os.
Proof. unfold set_latest. by destruct os. Qed.

(** C6. When the probe returns [(rt, rc)], the sample is classified
    operational exactly when [rc] is 200 or 400; every other code gives a
    non-operational sample. That status is what [ping_service] records (on a
    well-formed document, for a timestamp that is not stale and a walk that
    stays among the datetimes). *)
Theorem classification_rule (self : PingLatest) (s : Service) (rt rc : Z) :
  ping s 15 = Pinged rt rc ->
  exists os : bool,
    probe s self = (Ok (Some rt, rc, os), self) /\
    (os = true <-> rc = 200 \/ rc = 400) /\
    (rc <> 200 -> rc <> 400 -> os = false) /\
    forall utcnow : datetime,
      well_formed self -> is_stale (updated self) utcnow = false ->
      walk_in_range self utcnow ->
      let self' := state_after (ping_service (Some s) utcnow) self in
      last_operational_status self' = Some os /\
      triple self' (Z.to_nat (slot utcnow))
      = (Some (Some rt), Some (Some rc), Some (Some os)).
Proof.
  intros Hping. exists (Py.in_ rc [200; 400]).
  pose proof (probe_pinged s rt rc self Hping) as Hprobe.
  pose proof (in_200_400 rc) as Hin.
  split; [done|]. split; [done|]. split.
  { intros H2 H4. destruct (Py.in_ rc [200; 400]); [|done].
    destruct (proj1 Hin eq_refl); done. }
  intros utcnow Hwf Hst Hrange self'. subst self'. unfold state_after.
  rewrite (ping_service_run s utcnow self (Some rt) rc (Py.in_ rc [200; 400]))
    by (unfold result_of; by rewrite Hprobe).
  rewrite finish_ping_run by done. cbn [snd].
  rewrite last_status_store, last_status_set_latest.
  rewrite triple_store
    by eauto with wf.
  by case_decide.
Qed.

Lemma classification_rule_witness :
  exists os : bool,
    probe bad_request_service (default_document 0)
    = (Ok (Some 35, 400, os), default_document 0) /\
    (os = true <-> 400 = 200 \/ 400 = 400) /\
    (400 <> 200 -> 400 <> 400 -> os = false) /\
    forall utcnow : datetime,
      well_formed (default_document 0) ->
      is_stale (updated (default_document 0)) utcnow = false ->
      walk_in_range (default_document 0) utcnow ->
      let self' :=
        state_after (ping_service (Some bad_request_service) utcnow) (default_document 0) in
      last_operational_status self' = Some os /\
      triple self' (Z.to_nat (slot utcnow))
      = (Some (Some 35), Some (Some 400), Some (Some os)).
Proof.
  apply (classification_rule (default_document 0) bad_request_service 35 400).
  reflexivity.
Defined.

(** ** C7: probe failures *)

Lemma caught_iff (e : exception) :
  caught e = true <-> e = ConnectionError \/ e = HTTPError \/ e = Timeout.
Proof. destruct e; cbn; intuition congruence. Qed.

(** C7, as the code has it. When the probe raises a connection error, an
    HTTP error or a timeout, [ping_service] hands the sample (absent, -1,
    false) to [set_ping_data], and the probe's exception does not propagate.
    At a stale timestamp nothing is recorded: the document is left as it
    was. Otherwise, on a well-formed document whose walk stays among the
    datetimes, the call returns and that sample is what the document
    records. A probe exception of any other class is not caught: it
    propagates out of [ping_service] and the document is left as it was. *)
Theorem probe_failure_conversion (self : PingLatest) (s : Service)
    (utcnow : datetime) (e : exception) :
  ping s 15 = PingRaises e ->
  (caught e = true <-> e = ConnectionError \/ e = HTTPError \/ e = Timeout) /\
  (caught e = true ->
     ping_service (Some s) utcnow self
     = finish_ping (last_operational_status self) (get_index (updated self))
         utcnow None (-1) false self /\
     (is_stale (updated self) utcnow = true ->
        (exists v, result_of (ping_service (Some s) utcnow) self = Ok v) /\
        state_after (ping_service (Some s) utcnow) self = self) /\
     (well_formed self -> is_stale (updated self) utcnow = false ->
      walk_in_range self utcnow ->
        (exists v, result_of (ping_service (Some s) utcnow) self = Ok v) /\
        let self' := state_after (ping_service (Some s) utcnow) self in
        last_response_time self' = None /\
        last_response_code self' = Some (-1) /\
        last_operational_status self' = Some false /\
        triple self' (Z.to_nat (slot utcnow))
        = (Some None, Some (Some (-1)), Some (Some false)))) /\
  (caught e = false -> ping_service (Some s) utcnow self = (Raise e, self)).
Proof.
  intros Hping. split; [apply caught_iff|]. split.
  - intros Hc.
    assert (ping_service (Some s) utcnow self
            = finish_ping (last_operational_status self) (get_index (updated self))
                utcnow None (-1) false self) as Hrun.
    { apply ping_service_run. unfold result_of. by rewrite (probe_caught s e). }
    split; [done|]. unfold result_of, state_after. rewrite Hrun. split.
    + intros Hst. rewrite finish_ping_stale by done. split; [by eexists | done].
    + intros Hwf Hst Hrange. rewrite finish_ping_run by done. cbn [fst snd].
      split; [by eexists|].
      rewrite triple_store
        by eauto with wf.
      by case_decide.
  - intros Hc. apply ping_service_raises. unfold result_of.
    by rewrite (probe_uncaught s e).
Qed.

Lemma probe_failure_conversion_witness :
  let self := default_document 0 in
  let s := failing_service in
  (caught Timeout = true <->
     Timeout = ConnectionError \/ Timeout = HTTPError \/ Timeout = Timeout) /\
  (caught Timeout = true ->
     ping_service (Some s) mon_0015 self
     = finish_ping (last_operational_status self) (get_index (updated self))
         mon_0015 None (-1) false self /\
     (is_stale (updated self) mon_0015 = true ->
        (exists v, result_of (ping_service (Some s) mon_0015) self = Ok v) /\
        state_after (ping_service (Some s) mon_0015) self = self) /\
     (well_formed self -> is_stale (updated self) mon_0015 = false ->
      walk_in_range self mon_0015 ->
        (exists v, result_of (ping_service (Some s) mon_0015) self = Ok v) /\
        let self' := state_after (ping_service (Some s) mon_0015) self in
        last_response_time self' = None /\
        last_response_code self' = Some (-1) /\
        last_operational_status self' = Some false /\
        triple self' (Z.to_nat (slot mon_0015))
        = (Some None, Some (Some (-1)), Some (Some false)))) /\
  (caught Timeout = false -> ping_service (Some s) mon_0015 self = (Raise Timeout, self)).
Proof.
  intros self s.
  apply (probe_failure_conversion self s mon_0015 Timeout).
  reflexivity.
Defined.

(** C7 as stated fails twice over. A probe that raises an exception outside
    the three caught classes (here requests.TooManyRedirects) makes
    [ping_service] raise it. And a timeout at a stale timestamp is converted
    but not recorded: the document keeps code 200. *)
Lemma probe_exception_propagates :
  let self := state_after (ping_service (Some good_service) mon_0320) (default_document 0) in
  result_of (ping_service (Some redirecting_service) mon_0320) self
    = Raise (OtherException "requests.TooManyRedirects") /\
  last_response_code (state_after (ping_service (Some failing_service) mon_0015) self)
    = Some 200.
Proof. vm_compute. split; reflexivity. Qed.

(** ** C10: the stale ping cycle *)

(** C10. When the wall clock is earlier than [updated] and the probe yields
    a sample, [set_ping_data] returns [None], the document is left as it
    was, and [ping_service] still returns [last_idx != None], which is true
    because [updated] was set, together with the flip flag computed from the
    status that was just classified and never recorded. *)
Theorem stale_ping_cycle (self : PingLatest) (s : Service) (utcnow u : datetime)
    (rt : option Z) (rc : Z) (os : bool) :
  updated self = Some u -> utcnow < u ->
  result_of (probe s) self = Ok (rt, rc, os) ->
  let last := last_operational_status self in
  let last_idx := get_index (updated self) in
  set_ping_data utcnow rt rc os self = (Ok None, self) /\
  ping_service (Some s) utcnow self
  = (Ok (Py.ne_int last_idx None, Py.and_ last (Some (Py.ne_bool last (Some os)))), self) /\
  Py.ne_int last_idx None = true.
Proof.
  intros Hupd Hlt Hprobe last last_idx.
  assert (is_stale (updated self) utcnow = true) as Hst
    by (rewrite Hupd; cbn; lia).
  split; [by apply set_ping_data_stale|]. split.
  - rewrite (ping_service_run _ _ _ _ _ _ Hprobe). by apply finish_ping_stale.
  - subst last_idx. by rewrite Hupd.
Qed.

Lemma stale_ping_cycle_witness :
  let self := state_after (ping_service (Some good_service) mon_0320) (default_document 0) in
  let last := last_operational_status self in
  let last_idx := get_index (updated self) in
  set_ping_data mon_0015 None (-1) false self = (Ok None, self) /\
  ping_service (Some failing_service) mon_0015 self
  = (Ok (Py.ne_int last_idx None, Py.and_ last (Some (Py.ne_bool last (Some false)))), self) /\
  Py.ne_int last_idx None = true.
Proof.
  intros self.
  apply (stale_ping_cycle self failing_service mon_0015 mon_0320 None (-1) false).
  - reflexivity.
  - reflexivity.
  - reflexivity.
Defined.

(** ** C8: last_good_time *)

Lemma scalars_last_good_time s1 s2 :
  scalars s1 = scalars s2 -> last_good_time s1 = last_good_time s2.
Proof. unfold scalars. congruence. Qed.

Lemma scalars_last_status s1 s2 :
  scalars s1 = scalars s2 -> last_operational_status s1 = last_operational_status s2.
Proof. unfold scalars. congruence. Qed.

Lemma last_good_time_set_latest dt rt rc os self :
  last_good_time (set_latest dt rt rc os self)
  = if os then Some dt else last_good_time self.
Proof. unfold set_latest. by destruct os. Qed.

Lemma good_time_recorded_scalars s1 s2 :
  scalars s1 = scalars s2 -> good_time_recorded s2 -> good_time_recorded s1.
Proof.
  unfold good_time_recorded. intros Hsc.
  by rewrite (scalars_last_status _ _ Hsc), (scalars_last_good_time _ _ Hsc),
    (scalars_updated _ _ Hsc).
Qed.

Lemma good_time_recorded_set_latest dt rt rc os self :
  good_time_recorded (set_latest dt rt rc os self).
Proof.
  unfold good_time_recorded.
  rewrite last_status_set_latest, last_good_time_set_latest, updated_set_latest.
  intros [= ->]. by split; [eexists|].
Qed.

Lemma record_sample_good_time (self : PingLatest) (c : sample) :
  good_time_recorded self -> good_time_recorded (record_sample self c).
Proof.
  intros Hinv. unfold record_sample.
  destruct (set_ping_data_scalars (sample_dt c) (sample_response_time c)
              (sample_response_code c) (sample_operational_status c) self)
    as [_ [Hsame|[_ Hset]]].
  - by apply (good_time_recorded_scalars _ _ Hsame).
  - apply (good_time_recorded_scalars _ _ Hset), good_time_recorded_set_latest.
Qed.

Lemma record_all_good_time (calls : list sample) (self : PingLatest) :
  good_time_recorded self -> good_time_recorded (record_all calls self).
Proof.
  unfold record_all. revert self.
  induction calls as [|c calls IH]; intros self Hinv; [done|].
  cbn [foldl]. by apply IH, record_sample_good_time.
Qed.

(** C8, as the code has it. On a well-formed document a call that is not
    dropped as stale, and whose walk stays among the datetimes, sets
    [last_good_time = dt] when the new sample is operational; on any
    document a non-operational sample, and a stale one, leave
    [last_good_time] untouched, so it is never cleared. On every document
    reached from a fresh one by [set_ping_data] calls, if the most recent
    recorded sample was operational then [last_good_time] is set, to the
    time of that sample. (The converse fails: it stays set after a later
    non-operational sample.) *)
Theorem last_good_time_kept (self : PingLatest) (dt : datetime)
    (rt : option Z) (rc : Z) (os : bool) :
  let self' := state_after (set_ping_data dt rt rc os) self in
  (well_formed self -> is_stale (updated self) dt = false ->
   walk_in_range self dt -> os = true ->
     last_good_time self' = Some dt) /\
  (os = false -> last_good_time self' = last_good_time self) /\
  (is_stale (updated self) dt = true -> last_good_time self' = last_good_time self) /\
  (is_Some (last_good_time self) -> is_Some (last_good_time self')) /\
  (forall (calls : list sample) (now : datetime),
     let doc := record_all calls (default_document now) in
     last_operational_status doc = Some true ->
     is_Some (last_good_time doc) /\ last_good_time doc = updated doc).
Proof.
  intros self'.
  destruct (set_ping_data_scalars dt rt rc os self) as [_ Hcases]. fold self' in Hcases.
  split; [|split; [|split; [|split]]].
  - intros Hwf Hst Hrange ->. unfold self', state_after.
    by rewrite set_ping_data_run by done.
  - intros ->. destruct Hcases as [Hsame|[_ Hset]].
    + by apply scalars_last_good_time.
    + by rewrite (scalars_last_good_time _ _ Hset), last_good_time_set_latest.
  - intros Hst. unfold self', state_after. by rewrite set_ping_data_stale.
  - intros Hsome. destruct Hcases as [Hsame|[_ Hset]].
    + by rewrite (scalars_last_good_time _ _ Hsame).
    + rewrite (scalars_last_good_time _ _ Hset), last_good_time_set_latest.
      by destruct os; [eexists|].
  - intros calls now doc. apply record_all_good_time. by intros [=].
Qed.

Lemma last_good_time_kept_witness :
  let self := state_after (set_ping_data mon_0015 (Some 120) 200 true) (default_document 0) in
  let self' := state_after (set_ping_data mon_0320 None (-1) false) self in
  (well_formed self -> is_stale (updated self) mon_0320 = false ->
   walk_in_range self mon_0320 -> false = true ->
     last_good_time self' = Some mon_0320) /\
  (false = false -> last_good_time self' = last_good_time self) /\
  (is_stale (updated self) mon_0320 = true -> last_good_time self' = last_good_time self) /\
  (is_Some (last_good_time self) -> is_Some (last_good_time self')) /\
  (forall (calls : list sample) (now : datetime),
     let doc := record_all calls (default_document now) in
     last_operational_status doc = Some true ->
     is_Some (last_good_time doc) /\ last_good_time doc = updated doc).
Proof.
  intros self.
  apply (last_good_time_kept self mon_0320 None (-1) false).
Defined.

(** C8 as stated fails in its "only if" half: after an operational sample
    followed by a non-operational one, [last_good_time] is set although the
    most recent recorded sample was not operational. *)
Lemma last_good_time_set_after_bad_sample :
  let doc := record_all [mkSample mon_0015 (Some 120) 200 true;
                         mkSample mon_0320 None (-1) false] (default_document 0) in
  last_operational_status doc = Some false /\
  last_good_time doc = Some mon_0015 /\
  ~ (is_Some (last_good_time doc) <-> last_operational_status doc = Some true).
Proof.
  split; [reflexivity|]. split; [reflexivity|].
  intros [Hif _]. specialize (Hif ltac:(by eexists)). vm_compute in Hif. discriminate.
Qed.

(** ** C9: the length of the gap-filling walk *)

(** C9, as the code has it. For a document with [updated = u] and a call at
    [dt >= u] the walk always terminates: it returns or raises. On a
    well-formed document, with [u] a datetime and [dt] at least one hour
    before [datetime.max], it runs once for every whole-hour step [u + k]
    hours, [k >= 1], that lies before [dt]: that is [(dt - u - 1) / 1h] times
    (none when [dt = u]), which is at most 168 exactly when [dt] is at most
    169 hours after [u]; the call then returns the slot of [dt]. *)
Theorem gap_walk_iterations (self : PingLatest) (u dt : datetime)
    (rt : option Z) (rc : Z) (os : bool) :
  updated self = Some u -> u <= dt ->
  result_of (gap_fill dt (updated self)) self <> OutOfFuel /\
  result_of (set_ping_data dt rt rc os) self <> OutOfFuel /\
  (well_formed self -> 0 <= u -> dt + timedelta_hours 1 <= datetime_max ->
     exists n : nat,
       result_of (gap_fill dt (updated self)) self = Ok n /\
       Z.of_nat n = Z.max 0 ((dt - u - 1) / MICROSECONDS_PER_HOUR) /\
       ((n <= 168)%nat <-> dt - u <= timedelta_hours 169) /\
       result_of (set_ping_data dt rt rc os) self = Ok (Some (slot dt))).
Proof.
  intros Hupd Hle. split; [apply gap_fill_terminates|].
  split; [apply set_ping_data_scalars|].
  intros Hwf H0 Hmax. exists (gap_count dt (u + timedelta_hours 1)).
  pose proof (walk_in_range_intro self u dt Hupd H0 Hmax) as Hrange.
  assert (is_stale (updated self) dt = false) as Hst by (rewrite Hupd; cbn; lia).
  unfold result_of. rewrite gap_fill_run by done. rewrite Hupd. split; [done|].
  assert (Z.of_nat (gap_count dt (u + timedelta_hours 1))
          = Z.max 0 ((dt - u - 1) / MICROSECONDS_PER_HOUR)) as Hn.
  { unfold gap_count, timedelta_hours.
    replace (dt - (u + 1 * MICROSECONDS_PER_HOUR) + MICROSECONDS_PER_HOUR - 1)
      with (dt - u - 1) by lia.
    lia. }
  split; [done|]. split.
  - unfold timedelta_hours, MICROSECONDS_PER_HOUR in *.
    Z.to_euclidean_division_equations; lia.
  - by rewrite set_ping_data_run.
Qed.

Lemma gap_walk_iterations_witness :
  let self := state_after (set_ping_data mon_0015 (Some 120) 200 true) (default_document 0) in
  result_of (gap_fill mon_0320 (updated self)) self <> OutOfFuel /\
  result_of (set_ping_data mon_0320 None (-1) false) self <> OutOfFuel /\
  (well_formed self -> 0 <= mon_0015 -> mon_0320 + timedelta_hours 1 <= datetime_max ->
     exists n : nat,
       result_of (gap_fill mon_0320 (updated self)) self = Ok n /\
       Z.of_nat n = Z.max 0 ((mon_0320 - mon_0015 - 1) / MICROSECONDS_PER_HOUR) /\
       ((n <= 168)%nat <-> mon_0320 - mon_0015 <= timedelta_hours 169) /\
       result_of (set_ping_data mon_0320 None (-1) false) self = Ok (Some (slot mon_0320))).
Proof.
  intros self.
  apply (gap_walk_iterations self mon_0015 mon_0320 None (-1) false).
  - reflexivity.
  - vm_compute. discriminate.
Defined.

(** C9 as stated fails: with [updated] at the epoch and a sample 200 hours
    later, the walk runs 199 times. *)
Lemma gap_walk_exceeds_168 :
  let self := state_after (set_ping_data 0 (Some 120) 200 true) (default_document 0) in
  updated self = Some 0 /\
  0 <= timedelta_hours 200 /\
  result_of (gap_fill (timedelta_hours 200) (updated self)) self = Ok 199%nat /\
  ~ (199 <= 168)%nat.
Proof.
  split; [reflexivity|]. split; [by vm_compute|].
  split; [vm_compute; reflexivity | lia].
Qed.

(** * Further properties of the methods *)

(** ** [get_index] *)

(** X1. Every timestamp has a slot, between 0 and 167; no timestamp has
    none. *)
Theorem get_index_range (dt : datetime) :
  exists idx : Z, get_index (Some dt) = Some idx /\ 0 <= idx <= 167.
Proof.
  exists (slot dt). split; [apply get_index_slot|].
  pose proof (slot_range dt). lia.
Qed.

(** X2. The buffer is a ring over calendar time: moving a timestamp by [k]
    whole hours moves its slot by [k] modulo 168, so any number of whole
    weeks, forward or back, leaves the slot where it was. *)
Theorem get_index_shift (dt : datetime) (k w : Z) :
  get_index (Some (dt + timedelta_hours k))
    = option_map (fun idx => (idx + k) mod 168) (get_index (Some dt)) /\
  get_index (Some (dt + timedelta_hours (168 * w))) = get_index (Some dt).
Proof.
  rewrite !get_index_slot. cbn [option_map].
  rewrite !slot_hours_of, !hours_of_add. split; f_equal.
  - by rewrite Zplus_mod_idemp_l.
  - rewrite Z.mul_comm. apply Z.mod_add. lia.
Qed.

(** X3. Two timestamps share a slot exactly when their hours differ by a
    multiple of 168; within one calendar week, timestamps of different hours
    have different slots. *)
Theorem same_slot_iff (a b : datetime) :
  (get_index (Some a) = get_index (Some b) <->
     (hours_of a - hours_of b) mod 168 = 0) /\
  (week_of a = week_of b -> get_index (Some a) = get_index (Some b) ->
     hours_of a = hours_of b).
Proof.
  rewrite !get_index_slot, !week_of_hours, !slot_hours_of. split.
  - split.
    + intros [= Heq]. Z.to_euclidean_division_equations; lia.
    + intros Hmod. f_equal. Z.to_euclidean_division_equations; lia.
  - intros Hweek [= Heq]. Z.to_euclidean_division_equations; lia.
Qed.

Lemma same_slot_iff_witness :
  hours_of mon_0015 = hours_of (mon_0015 + 45 * 60 * 1000000 - 1).
Proof.
  apply (proj2 (same_slot_iff mon_0015 (mon_0015 + 45 * 60 * 1000000 - 1))).
  - reflexivity.
  - reflexivity.
Defined.

(** ** The gap-filling walk in general *)

(** The walk from [start_dt] runs its [k]-th step exactly when that step's
    timestamp is still before [dt]. *)
Lemma gap_count_lt (dt start_dt : datetime) (k : nat) :
  (k < gap_count dt start_dt)%nat <-> start_dt + timedelta_hours (Z.of_nat k) < dt.
Proof.
  unfold gap_count, timedelta_hours, MICROSECONDS_PER_HOUR.
  Z.to_euclidean_division_equations; lia.
Qed.

Lemma gap_filled_hit (self : PingLatest) (u dt : datetime) (k : Z) :
  well_formed self -> updated self = Some u ->
  1 <= k -> u + timedelta_hours k < dt ->
  triple (gap_filled dt self) (Z.to_nat (slot (u + timedelta_hours k))) = absent_triple.
Proof.
  intros Hwf Hupd Hk Hlt. unfold gap_filled. rewrite Hupd.
  assert (u + timedelta_hours k
          = u + timedelta_hours 1 + timedelta_hours (Z.of_nat (Z.to_nat (k - 1))))
    as Heq by (rewrite Z2Nat.id by lia; unfold timedelta_hours; lia).
  rewrite Heq in *.
  apply null_walk_hit; [done|]. by apply gap_count_lt.
Qed.

Lemma gap_filled_other (self : PingLatest) (dt : datetime) (j : nat) :
  well_formed self ->
  (forall u k, updated self = Some u -> 1 <= k -> u + timedelta_hours k < dt ->
     Z.to_nat (slot (u + timedelta_hours k)) <> j) ->
  triple (gap_filled dt self) j = triple self j.
Proof.
  intros Hwf Hmiss. unfold gap_filled. destruct (updated self) as [u|] eqn:Hupd; [|done].
  apply null_walk_other; [done|]. intros k Hk.
  replace (u + timedelta_hours 1 + timedelta_hours (Z.of_nat k))
    with (u + timedelta_hours (Z.of_nat k + 1)) in *
    by (unfold timedelta_hours; lia).
  apply (Hmiss u); [done | lia |].
  apply gap_count_lt in Hk. unfold timedelta_hours in *. lia.
Qed.

(** X4. A call at [dt >= updated] on a well-formed document, with [updated]
    a datetime and [dt] at least one hour before [datetime.max], writes the
    new sample into the slot of [dt], leaves absent every other slot that
    some whole-hour step [updated + k] hours ([k >= 1]) before [dt] falls in,
    and leaves all remaining slots as they were. *)
Theorem gap_filling_general (self : PingLatest) (u dt : datetime)
    (rt : option Z) (rc : Z) (os : bool) :
  well_formed self -> updated self = Some u -> u <= dt ->
  0 <= u -> dt + timedelta_hours 1 <= datetime_max ->
  let self' := state_after (set_ping_data dt rt rc os) self in
  triple self' (Z.to_nat (slot dt)) = (Some rt, Some (Some rc), Some (Some os)) /\
  (forall k : Z, 1 <= k -> u + timedelta_hours k < dt ->
     slot (u + timedelta_hours k) <> slot dt ->
     triple self' (Z.to_nat (slot (u + timedelta_hours k))) = absent_triple) /\
  (forall j : nat, j <> Z.to_nat (slot dt) ->
     (forall k : Z, 1 <= k -> u + timedelta_hours k < dt ->
        Z.to_nat (slot (u + timedelta_hours k)) <> j) ->
     triple self' j = triple self j).
Proof.
  intros Hwf Hupd Hle H0 Hmax self'.
  pose proof (walk_in_range_intro self u dt Hupd H0 Hmax) as Hrange.
  assert (is_stale (updated self) dt = false) as Hst by (rewrite Hupd; cbn; lia).
  assert (forall j, triple self' j
            = if decide (Z.to_nat (slot dt) = j)
              then (Some rt, Some (Some rc), Some (Some os))
              else triple (gap_filled dt self) j) as Htriple.
  { intros j. unfold self'. by rewrite triple_after_call, Hst. }
  split; [|split].
  - rewrite Htriple. by case_decide.
  - intros k Hk Hlt Hne. rewrite Htriple.
    pose proof (slot_range dt). pose proof (slot_range (u + timedelta_hours k)).
    case_decide; [lia|]. by apply gap_filled_hit.
  - intros j Hj Hmiss. rewrite Htriple. case_decide; [done|].
    apply gap_filled_other; [done|]. intros u' k Hu'. rewrite Hupd in Hu'.
    injection Hu' as <-. apply Hmiss.
Qed.

Lemma gap_filling_general_witness :
  let self := state_after (set_ping_data mon_0015 (Some 120) 200 true) (default_document 0) in
  let self' := state_after (set_ping_data mon_0320 None (-1) false) self in
  triple self' (Z.to_nat (slot mon_0320)) = (Some None, Some (Some (-1)), Some (Some false)) /\
  (forall k : Z, 1 <= k -> mon_0015 + timedelta_hours k < mon_0320 ->
     slot (mon_0015 + timedelta_hours k) <> slot mon_0320 ->
     triple self' (Z.to_nat (slot (mon_0015 + timedelta_hours k))) = absent_triple) /\
  (forall j : nat, j <> Z.to_nat (slot mon_0320) ->
     (forall k : Z, 1 <= k -> mon_0015 + timedelta_hours k < mon_0320 ->
        Z.to_nat (slot (mon_0015 + timedelta_hours k)) <> j) ->
     triple self' j = triple self j).
Proof.
  intros self.
  apply (gap_filling_general self mon_0015 mon_0320 None (-1) false).
  - vm_compute. repeat split.
  - reflexivity.
  - vm_compute. discriminate.
  - vm_compute. discriminate.
  - vm_compute. discriminate.
Defined.

(** X5. The first sample ever recorded (no [updated] yet) skips the walk: on
    a well-formed document the call returns the slot of [dt], writes the
    sample there, sets [updated] and leaves every other slot as it was. *)
Theorem first_sample_no_walk (self : PingLatest) (dt : datetime)
    (rt : option Z) (rc : Z) (os : bool) :
  well_formed self -> updated self = None ->
  let self' := state_after (set_ping_data dt rt rc os) self in
  result_of (set_ping_data dt rt rc os) self = Ok (get_index (Some dt)) /\
  updated self' = Some dt /\
  triple self' (Z.to_nat (slot dt)) = (Some rt, Some (Some rc), Some (Some os)) /\
  (forall j : nat, j <> Z.to_nat (slot dt) -> triple self' j = triple self j).
Proof.
  intros Hwf Hupd self'.
  pose proof (walk_in_range_unset self dt Hupd) as Hrange.
  assert (is_stale (updated self) dt = false) as Hst by (by rewrite Hupd).
  assert (gap_filled dt self = self) as Hgap by (unfold gap_filled; by rewrite Hupd).
  split; [|split; [|split]].
  - unfold result_of. by rewrite set_ping_data_run.
  - unfold self', state_after. rewrite set_ping_data_run by done. cbn [snd].
    by destruct os.
  - unfold self'. rewrite triple_after_call, Hst by done. by case_decide.
  - intros j Hj. unfold self'. rewrite triple_after_call, Hst, Hgap by done.
    by case_decide.
Qed.

Lemma first_sample_no_walk_witness :
  let self := default_document 0 in
  let self' := state_after (set_ping_data mon_0320 (Some 35) 400 true) self in
  result_of (set_ping_data mon_0320 (Some 35) 400 true) self = Ok (get_index (Some mon_0320)) /\
  updated self' = Some mon_0320 /\
  triple self' (Z.to_nat (slot mon_0320)) = (Some (Some 35), Some (Some 400), Some (Some true)) /\
  (forall j : nat, j <> Z.to_nat (slot mon_0320) -> triple self' j = triple self j).
Proof.
  intros self.
  apply (first_sample_no_walk self mon_0320 (Some 35) 400 true).
  - vm_compute. repeat split.
  - reflexivity.
Defined.

(** X6. After a silence of more than a week (more than 168 hours since
    [updated]) the walk passes through every slot: on a well-formed
    document, with [updated] a datetime and [dt] at least one hour before
    [datetime.max], the new sample is the only one left, all other slots are
    absent. *)
Theorem gap_over_a_week_clears_window (self : PingLatest) (u dt : datetime)
    (rt : option Z) (rc : Z) (os : bool) :
  well_formed self -> updated self = Some u -> timedelta_hours 168 < dt - u ->
  0 <= u -> dt + timedelta_hours 1 <= datetime_max ->
  let self' := state_after (set_ping_data dt rt rc os) self in
  forall j : nat, (j < 168)%nat ->
    triple self' j
    = if decide (j = Z.to_nat (slot dt))
      then (Some rt, Some (Some rc), Some (Some os))
      else absent_triple.
Proof.
  intros Hwf Hupd Hgap H0 Hmax self' j Hj.
  pose proof (walk_in_range_intro self u dt Hupd H0 Hmax) as Hrange.
  assert (is_stale (updated self) dt = false) as Hst
    by (rewrite Hupd; cbn; unfold timedelta_hours, MICROSECONDS_PER_HOUR in Hgap; lia).
  unfold self'. rewrite triple_after_call, Hst by done.
  case_decide as Hjd; subst; case_decide; try done; try congruence.
  set (k := (Z.of_nat j - hours_of u - 1) mod 168 + 1).
  assert (1 <= k <= 168) as Hk
    by (subst k; pose proof (Z.mod_pos_bound (Z.of_nat j - hours_of u - 1) 168); lia).
  assert (slot (u + timedelta_hours k) = Z.of_nat j) as Hslot.
  { rewrite slot_hours_of, hours_of_add. subst k.
    Z.to_euclidean_division_equations; lia. }
  rewrite <- (Nat2Z.id j), <- Hslot.
  apply gap_filled_hit; [done | done | lia |].
  unfold timedelta_hours, MICROSECONDS_PER_HOUR in *. lia.
Qed.

Lemma gap_over_a_week_clears_window_witness :
  let self := state_after (set_ping_data mon_0015 (Some 120) 200 true) (default_document 0) in
  let dt := mon_0320 + timedelta_hours 200 in
  let self' := state_after (set_ping_data dt None (-1) false) self in
  triple self' 0%nat
  = if decide (0%nat = Z.to_nat (slot dt))
    then (Some None, Some (Some (-1)), Some (Some false))
    else absent_triple.
Proof.
  intros self dt.
  apply (gap_over_a_week_clears_window self mon_0015 dt None (-1) false).
  - vm_compute. repeat split.
  - reflexivity.
  - reflexivity.
  - vm_compute. discriminate.
  - vm_compute. discriminate.
  - lia.
Defined.

(** X7. A sample taken at most one hour after [updated] finds no gap: on a
    well-formed document, with [updated] a datetime and [dt] at least one
    hour before [datetime.max], the body of the walk does not run and only
    the slot of [dt] changes. Two samples falling in the same hour therefore
    share a slot, the later one replacing the earlier. *)
Theorem no_gap_within_an_hour (self : PingLatest) (u dt : datetime)
    (rt : option Z) (rc : Z) (os : bool) :
  well_formed self -> updated self = Some u ->
  u <= dt -> dt - u <= timedelta_hours 1 ->
  0 <= u -> dt + timedelta_hours 1 <= datetime_max ->
  let self' := state_after (set_ping_data dt rt rc os) self in
  result_of (gap_fill dt (updated self)) self = Ok O /\
  triple self' (Z.to_nat (slot dt)) = (Some rt, Some (Some rc), Some (Some os)) /\
  (forall j : nat, j <> Z.to_nat (slot dt) -> triple self' j = triple self j) /\
  (hours_of dt = hours_of u -> get_index (Some dt) = get_index (updated self)).
Proof.
  intros Hwf Hupd Hle Hgap H0 Hmax self'.
  pose proof (walk_in_range_intro self u dt Hupd H0 Hmax) as Hrange.
  assert (is_stale (updated self) dt = false) as Hst by (rewrite Hupd; cbn; lia).
  assert (gap_count dt (u + timedelta_hours 1) = O) as Hn
    by (apply gap_count_done; lia).
  assert (gap_filled dt self = self) as Hfilled
    by (unfold gap_filled; by rewrite Hupd, Hn).
  split; [|split; [|split]].
  - unfold result_of. rewrite gap_fill_run, Hupd by done. cbn. by rewrite Hn.
  - unfold self'. rewrite triple_after_call, Hst by done. by case_decide.
  - intros j Hj. unfold self'. rewrite triple_after_call, Hst, Hfilled by done.
    by case_decide.
  - intros Hh. rewrite Hupd, !get_index_slot, !slot_hours_of. by rewrite Hh.
Qed.

Lemma no_gap_within_an_hour_witness :
  let self := state_after (set_ping_data mon_0015 (Some 120) 200 true) (default_document 0) in
  let dt := mon_0015 + 60 * 1000000 in
  let self' := state_after (set_ping_data dt (Some 95) 200 true) self in
  result_of (gap_fill dt (updated self)) self = Ok O /\
  triple self' (Z.to_nat (slot dt)) = (Some (Some 95), Some (Some 200), Some (Some true)) /\
  (forall j : nat, j <> Z.to_nat (slot dt) -> triple self' j = triple self j) /\
  (hours_of dt = hours_of mon_0015 -> get_index (Some dt) = get_index (updated self)).
Proof.
  intros self dt.
  apply (no_gap_within_an_hour self mon_0015 dt (Some 95) 200 true).
  - vm_compute. repeat split.
  - reflexivity.
  - vm_compute. discriminate.
  - vm_compute. discriminate.
  - vm_compute. discriminate.
  - vm_compute. discriminate.
Defined.

(** ** What the methods never touch *)

(** X8. No method ever resizes a window: whatever document [set_ping_data]
    or [ping_service] runs on, and whether the call returns or raises, each
    of the three lists has afterwards the length it had before; and
    [get_current_data] leaves the whole document as it was. *)
Theorem lists_never_resized (self : PingLatest) (dt : datetime)
    (rt : option Z) (rc : Z) (os : bool) (found : option Service) :
  lengths (state_after (set_ping_data dt rt rc os) self) = lengths self /\
  lengths (state_after (ping_service found dt) self) = lengths self /\
  state_after (get_current_data dt) self = self.
Proof.
  split; [apply keeps_lengths_set_ping_data|]. split.
  - unfold state_after. revert self.
    change (keeps lengths (ping_service found dt)).
    unfold ping_service. destruct found as [s|]; [|apply keeps_raise].
    apply keeps_bind; [apply keeps_gets | intros last].
    apply keeps_bind; [apply keeps_gets | intros last_idx].
    apply keeps_bind; [apply keeps_probe | intros [[rt' rc'] os']].
    apply keeps_bind; [apply keeps_lengths_set_ping_data | intros idx; apply keeps_ret].
  - unfold state_after. revert self.
    change (keeps (fun s => s) (get_current_data dt)).
    unfold get_current_data. rewrite get_index_slot.
    apply keeps_bind; [apply keeps_gets | intros rts].
    apply keeps_bind; [apply keeps_gets | intros oss].
    destruct (slot dt =? 167); apply keeps_ret.
Qed.

(** X9. The "latest" fields are assigned before the window is written, so a
    failing write does not undo them: on a document never updated whose
    [response_times] list is too short for the slot of [dt], the call raises
    IndexError, the three lists are untouched, and [updated] and the other
    "latest" fields already hold the new sample. *)
Theorem short_window_raises_after_update (self : PingLatest) (dt : datetime)
    (rt : option Z) (rc : Z) (os : bool) :
  updated self = None ->
  (length (response_times self) <= Z.to_nat (slot dt))%nat ->
  set_ping_data dt rt rc os self = (Raise IndexError, set_latest dt rt rc os self).
Proof.
  intros Hupd Hlen. pose proof (slot_range dt) as Hr.
  assert (Py.setitem (response_times self) (slot dt) rt = None) as Hset.
  { unfold Py.setitem.
    destruct (Z.ltb_spec (slot dt) (Z.of_nat (length (response_times self)))); [lia|].
    destruct (Z.ltb_spec (slot dt) 0); [lia|].
    by rewrite !andb_false_r. }
  unfold set_ping_data, bind, gets. rewrite Hupd. cbn [is_stale gap_fill ret modify].
  unfold set_latest, setitem_field. rewrite get_index_slot.
  destruct os; cbn; by rewrite Hset.
Qed.

Lemma short_window_raises_after_update_witness :
  let self := with_response_times [] (default_document 0) in
  set_ping_data mon_0015 (Some 120) 200 true self
  = (Raise IndexError, set_latest mon_0015 (Some 120) 200 true self).
Proof.
  intros self.
  apply (short_window_raises_after_update self mon_0015 (Some 120) 200 true).
  - reflexivity.
  - vm_compute. lia.
Defined.

(** ** The rotated view, slot by slot *)

Lemma get_current_data_rotate (self : PingLatest) (utcnow : datetime) :
  well_formed self ->
  get_current_data utcnow self
  = (Ok (rotate (Z.to_nat (slot utcnow + 1)) (response_times self),
         rotate (Z.to_nat (slot utcnow + 1)) (operational_statuses self)), self).
Proof.
  intros (Ht & Hc & Ho). pose proof (slot_range utcnow) as Hr.
  unfold get_current_data. rewrite get_index_slot. unfold bind, gets.
  destruct (Z.eqb_spec (slot utcnow) 167) as [Heq|Hne].
  - rewrite Heq. change (Z.to_nat (167 + 1)) with 168%nat.
    assert (rotate 168 (response_times self) = response_times self) as ->
      by (rewrite <- Ht; apply rotate_full).
    assert (rotate 168 (operational_statuses self) = operational_statuses self) as ->
      by (rewrite <- Ho; apply rotate_full).
    done.
  - destruct (rotated_view (response_times self) (slot utcnow) Ht ltac:(lia)) as [_ ->].
    by destruct (rotated_view (operational_statuses self) (slot utcnow) Ho ltac:(lia))
      as [_ ->].
Qed.

Lemma lookup_rotate_168 {A : Type} (l : list A) (n j : nat) :
  length l = 168%nat -> (j < 168)%nat ->
  rotate n l !! j = l !! Z.to_nat ((Z.of_nat n + Z.of_nat j) mod 168).
Proof.
  intros Hlen Hj. rewrite lookup_rotate_r by lia.
  unfold rotate_nat_add. by rewrite Hlen.
Qed.

(** X10. On a well-formed document the view has 168 entries per array, and
    entry [j] of each is the stored entry of slot [(idx + 1 + j) mod 168],
    [idx] being the slot of now: the slot after now's comes first, now's own
    slot comes last. *)
Theorem current_data_by_slot (self : PingLatest) (utcnow : datetime) :
  well_formed self ->
  exists times statuses,
    result_of (get_current_data utcnow) self = Ok (times, statuses) /\
    length times = 168%nat /\ length statuses = 168%nat /\
    (forall j : nat, (j < 168)%nat ->
       times !! j
         = response_times self !! Z.to_nat ((slot utcnow + 1 + Z.of_nat j) mod 168) /\
       statuses !! j
         = operational_statuses self !! Z.to_nat ((slot utcnow + 1 + Z.of_nat j) mod 168)) /\
    times !! 167%nat = response_times self !! Z.to_nat (slot utcnow) /\
    statuses !! 167%nat = operational_statuses self !! Z.to_nat (slot utcnow).
Proof.
  intros Hwf. pose proof Hwf as (Ht & Hc & Ho). pose proof (slot_range utcnow) as Hr.
  eexists _, _. unfold result_of. rewrite get_current_data_rotate by done.
  split; [reflexivity|]. rewrite !length_rotate.
  split; [done|]. split; [done|].
  assert (forall j : nat, (j < 168)%nat ->
    rotate (Z.to_nat (slot utcnow + 1)) (response_times self) !! j
      = response_times self !! Z.to_nat ((slot utcnow + 1 + Z.of_nat j) mod 168) /\
    rotate (Z.to_nat (slot utcnow + 1)) (operational_statuses self) !! j
      = operational_statuses self !! Z.to_nat ((slot utcnow + 1 + Z.of_nat j) mod 168))
    as Hlook.
  { intros j Hj. rewrite !lookup_rotate_168 by done.
    rewrite Z2Nat.id by lia. done. }
  split; [done|].
  destruct (Hlook 167%nat ltac:(lia)) as [-> ->].
  replace ((slot utcnow + 1 + Z.of_nat 167) mod 168) with (slot utcnow); [done|].
  Z.to_euclidean_division_equations; lia.
Qed.

Lemma current_data_by_slot_witness :
  let self := state_after (set_ping_data mon_0015 (Some 120) 200 true) (default_document 0) in
  exists times statuses,
    result_of (get_current_data mon_0320) self = Ok (times, statuses) /\
    length times = 168%nat /\ length statuses = 168%nat /\
    (forall j : nat, (j < 168)%nat ->
       times !! j
         = response_times self !! Z.to_nat ((slot mon_0320 + 1 + Z.of_nat j) mod 168) /\
       statuses !! j
         = operational_statuses self !! Z.to_nat ((slot mon_0320 + 1 + Z.of_nat j) mod 168)) /\
    times !! 167%nat = response_times self !! Z.to_nat (slot mon_0320) /\
    statuses !! 167%nat = operational_statuses self !! Z.to_nat (slot mon_0320).
Proof.
  intros self.
  apply (current_data_by_slot self mon_0320).
  vm_compute. repeat split.
Defined.

(** X11. Recording and reading back: after a sample is recorded at [dt] on a
    well-formed document (not dropped as stale, the walk staying among the
    datetimes), the view taken at the same instant ends with that sample's
    response time and status. *)
Theorem view_ends_with_new_sample (self : PingLatest) (dt : datetime)
    (rt : option Z) (rc : Z) (os : bool) :
  well_formed self -> is_stale (updated self) dt = false ->
  walk_in_range self dt ->
  let self' := state_after (set_ping_data dt rt rc os) self in
  exists times statuses,
    result_of (get_current_data dt) self' = Ok (times, statuses) /\
    times !! 167%nat = Some rt /\ statuses !! 167%nat = Some (Some os).
Proof.
  intros Hwf Hst Hrange self'. pose proof (slot_range dt) as Hr.
  assert (well_formed self') as Hwf' by (by apply set_ping_data_well_formed).
  pose proof Hwf' as (Ht & Hc & Ho).
  pose proof (triple_after_call dt rt rc os self (Z.to_nat (slot dt)) Hwf Hrange) as Htr.
  fold self' in Htr. rewrite Hst in Htr. rewrite decide_True in Htr by done.
  unfold triple in Htr. injection Htr as Htime _ Hstatus.
  eexists _, _. unfold result_of. rewrite get_current_data_rotate by done.
  split; [reflexivity|]. rewrite !lookup_rotate_168 by (done || lia).
  replace ((Z.of_nat (Z.to_nat (slot dt + 1)) + Z.of_nat 167) mod 168) with (slot dt)
    by (rewrite Z2Nat.id by lia; Z.to_euclidean_division_equations; lia).
  done.
Qed.

Lemma view_ends_with_new_sample_witness :
  let self := state_after (set_ping_data mon_0015 (Some 120) 200 true) (default_document 0) in
  let self' := state_after (set_ping_data mon_0320 None (-1) false) self in
  exists times statuses,
    result_of (get_current_data mon_0320) self' = Ok (times, statuses) /\
    times !! 167%nat = Some None /\ statuses !! 167%nat = Some (Some false).
Proof.
  intros self.
  apply (view_ends_with_new_sample self mon_0320 None (-1) false).
  - vm_compute. repeat split.
  - reflexivity.
  - vm_compute. split; discriminate.
Defined.

(** ** Documents reached by recording samples *)

Lemma record_all_well_formed (calls : list sample) (self : PingLatest) :
  well_formed self -> well_formed (record_all calls self).
Proof.
  unfold record_all. revert self.
  induction calls as [|c calls IH]; intros self Hwf; [done|].
  cbn [foldl]. apply IH. by apply set_ping_data_well_formed.
Qed.

Lemma record_sample_latest (self : PingLatest) (c : sample) :
  well_formed self -> walk_in_range self (sample_dt c) ->
  latest_in_window self -> latest_in_window (record_sample self c).
Proof.
  intros Hwf Hrange Hinv. unfold record_sample, state_after.
  destruct c as [dt rt rc os]. cbn [sample_dt sample_response_time
    sample_response_code sample_operational_status] in *.
  destruct (is_stale (updated self) dt) eqn:Hst.
  - by rewrite set_ping_data_stale.
  - rewrite set_ping_data_run by done. cbn [snd]. unfold latest_in_window.
    assert (updated (store (Z.to_nat (slot dt)) rt (Some rc) (Some os)
              (set_latest dt rt rc os (gap_filled dt self))) = Some dt) as ->
      by (by destruct os).
    rewrite triple_store by eauto with wf. rewrite decide_True by done.
    by destruct os.
Qed.

(** [updated], when set, is a datetime. *)
Lemma record_sample_updated_nonneg (self : PingLatest) (c : sample) :
  0 <= sample_dt c ->
  (forall u, updated self = Some u -> 0 <= u) ->
  forall u, updated (record_sample self c) = Some u -> 0 <= u.
Proof.
  intros Hc Hself u. unfold record_sample.
  destruct (set_ping_data_scalars (sample_dt c) (sample_response_time c)
              (sample_response_code c) (sample_operational_status c) self)
    as [_ [Hsame|[_ Hset]]].
  - rewrite (scalars_updated _ _ Hsame). apply Hself.
  - rewrite (scalars_updated _ _ Hset), updated_set_latest. by intros [= <-].
Qed.

Lemma record_all_latest (calls : list sample) (self : PingLatest) :
  Forall (fun c => 0 <= sample_dt c /\
                   sample_dt c + timedelta_hours 1 <= datetime_max) calls ->
  well_formed self -> (forall u, updated self = Some u -> 0 <= u) ->
  latest_in_window self -> latest_in_window (record_all calls self).
Proof.
  unfold record_all. intros Hcalls. revert self.
  induction Hcalls as [|c calls [Hc0 Hcmax] _ IH]; intros self Hwf Hnonneg Hinv; [done|].
  cbn [foldl]. apply IH.
  - by apply set_ping_data_well_formed.
  - by apply record_sample_updated_nonneg.
  - apply record_sample_latest; [done | | done].
    unfold walk_in_range. destruct (updated self) as [u|] eqn:Hu; [|done].
    split; [by apply Hnonneg | done].
Qed.

(** X12. On every document reached from a fresh one by [set_ping_data]
    calls (stale ones included) whose timestamps are datetimes at least one
    hour before [datetime.max], the lists keep their 168 slots, and the
    "latest" fields are a copy of the window: the slot of [updated] holds
    exactly [last_response_time], [last_response_code] and
    [last_operational_status]. *)
Theorem latest_fields_mirror_window (calls : list sample) (now : datetime) :
  Forall (fun c => 0 <= sample_dt c /\
                   sample_dt c + timedelta_hours 1 <= datetime_max) calls ->
  let doc := record_all calls (default_document now) in
  well_formed doc /\
  forall u : datetime, updated doc = Some u ->
    triple doc (Z.to_nat (slot u))
    = (Some (last_response_time doc), Some (last_response_code doc),
       Some (last_operational_status doc)).
Proof.
  intros Hcalls doc.
  split; [apply record_all_well_formed, default_document_well_formed|].
  intros u Hu.
  pose proof (record_all_latest calls (default_document now) Hcalls
                (default_document_well_formed now) ltac:(by intros ? [=]) I) as Hinv.
  fold doc in Hinv. unfold latest_in_window in Hinv. by rewrite Hu in Hinv.
Qed.

Lemma latest_fields_mirror_window_witness :
  let doc := record_all [mkSample mon_0320 (Some 120) 200 true;
                         mkSample mon_0015 (Some 80) 500 false] (default_document 0) in
  triple doc (Z.to_nat (slot mon_0320))
  = (Some (last_response_time doc), Some (last_response_code doc),
     Some (last_operational_status doc)).
Proof.
  intros doc.
  apply (proj2 (latest_fields_mirror_window
                  [mkSample mon_0320 (Some 120) 200 true;
                   mkSample mon_0015 (Some 80) 500 false] 0
                  ltac:(repeat constructor; vm_compute; discriminate)) mon_0320).
  reflexivity.
Defined.

(** ** [ping_service]: the new-slot flag, and what a flip leaves behind *)

Lemma ne_int_false (a b : option Z) : Py.ne_int a b = false <-> a = b.
Proof.
  destruct a as [x|], b as [y|]; cbn; try (split; congruence).
  rewrite negb_false_iff, Z.eqb_eq. split; congruence.
Qed.

(** X13. For a sample that is recorded (well-formed document, timestamp not
    stale, walk among the datetimes), [ping_service] reports "not new" exactly when [updated] was set
    and has the slot of now. So the first ping is always new, and a ping a
    whole number of weeks after the previous one is reported as not new,
    although it is a different hour. *)
Theorem is_new_slot_iff (self : PingLatest) (s : Service) (utcnow : datetime)
    (rt : option Z) (rc : Z) (os : bool) :
  well_formed self ->
  result_of (probe s) self = Ok (rt, rc, os) ->
  is_stale (updated self) utcnow = false ->
  walk_in_range self utcnow ->
  exists (is_new : bool) (flipped : option bool),
    result_of (ping_service (Some s) utcnow) self = Ok (is_new, flipped) /\
    (is_new = false <-> get_index (updated self) = get_index (Some utcnow)) /\
    (updated self = None -> is_new = true) /\
    (forall u w : Z, updated self = Some u -> utcnow = u + timedelta_hours (168 * w) ->
       is_new = false).
Proof.
  intros Hwf Hprobe Hst Hrange. eexists _, _. unfold result_of.
  rewrite (ping_service_run _ _ _ _ _ _ Hprobe), finish_ping_run by done.
  split; [reflexivity|]. rewrite <- get_index_slot. split; [apply ne_int_false|]. split.
  - by intros ->.
  - intros u w -> ->. apply ne_int_false. rewrite !get_index_slot. f_equal.
    rewrite !slot_hours_of, hours_of_add, Z.mul_comm. symmetry. apply Z.mod_add. lia.
Qed.

Lemma is_new_slot_iff_witness :
  let self := state_after (ping_service (Some good_service) mon_0015) (default_document 0) in
  let utcnow := mon_0015 + timedelta_hours (168 * 1) in
  exists (is_new : bool) (flipped : option bool),
    result_of (ping_service (Some failing_service) utcnow) self = Ok (is_new, flipped) /\
    (is_new = false <-> get_index (updated self) = get_index (Some utcnow)) /\
    (updated self = None -> is_new = true) /\
    (forall u w : Z, updated self = Some u -> utcnow = u + timedelta_hours (168 * w) ->
       is_new = false).
Proof.
  intros self utcnow.
  apply (is_new_slot_iff self failing_service utcnow None (-1) false).
  - vm_compute. repeat split.
  - reflexivity.
  - reflexivity.
  - vm_compute. split; discriminate.
Defined.

Lemma probe_cases (s : Service) (self : PingLatest) :
  (exists rt rc os, probe s self = (Ok (rt, rc, os), self)) \/
  (exists e, probe s self = (Raise e, self)).
Proof.
  unfold probe. destruct (ping s 15) as [rt rc|e].
  - left. by eexists _, _, _.
  - destruct (caught e); [left; by eexists _, _, _ | right; by eexists].
Qed.

(** [finish_ping] passes on what [set_ping_data] does. *)
Lemma finish_ping_result last last_idx dt rt rc os self :
  finish_ping last last_idx dt rt rc os self
  = (match result_of (set_ping_data dt rt rc os) self with
     | Ok idx =>
         Ok (Py.ne_int last_idx idx, Py.and_ last (Some (Py.ne_bool last (Some os))))
     | Raise e => Raise e
     | OutOfFuel => OutOfFuel
     end, state_after (set_ping_data dt rt rc os) self).
Proof.
  unfold finish_ping, bind, result_of, state_after.
  by destruct (set_ping_data dt rt rc os self) as [[idx|e|] s'].
Qed.

(** X14. What a flip leaves behind. On a document reached from a fresh one
    by [set_ping_data] calls, when [ping_service] returns a truthy flip flag,
    the previous status was [True], and [last_good_time] after the call is
    the time of the previous sample (the old [updated]); unless the new
    sample was dropped as stale, the recorded status is now [False]. *)
Theorem flip_keeps_last_good_time (calls : list sample) (now utcnow : datetime)
    (s : Service) (is_new : bool) (flipped : option bool) :
  let self := record_all calls (default_document now) in
  let self' := state_after (ping_service (Some s) utcnow) self in
  result_of (ping_service (Some s) utcnow) self = Ok (is_new, flipped) ->
  Py.truthy flipped = true ->
  last_operational_status self = Some true /\
  is_Some (updated self) /\
  last_good_time self' = updated self /\
  (is_stale (updated self) utcnow = false -> last_operational_status self' = Some false).
Proof.
  intros self self' Hres Hflip.
  assert (good_time_recorded self) as Hgood
    by (apply record_all_good_time; by intros [=]).
  unfold self', state_after, result_of in *.
  destruct (probe_cases s self) as [(rt & rc & os & Hp)|[e Hp]].
  2:{ rewrite (ping_service_raises s utcnow self e) in Hres
        by (unfold result_of; by rewrite Hp).
      discriminate. }
  assert (result_of (probe s) self = Ok (rt, rc, os)) as Hprobe
    by (unfold result_of; by rewrite Hp).
  rewrite (ping_service_run _ _ _ _ _ _ Hprobe), finish_ping_result in Hres |- *.
  cbn [fst snd] in *.
  destruct (result_of (set_ping_data utcnow rt rc os) self) as [idx|e|] eqn:Hcall;
    [|discriminate|discriminate].
  injection Hres as _ Hf.
  assert (last_operational_status self = Some true /\ os = false) as [Hlast ->].
  { subst flipped. destruct (last_operational_status self) as [[]|], os; by cbn in *. }
  destruct (Hgood Hlast) as [Hsome Heq].
  split; [done|]. split; [by rewrite <- Heq|]. split.
  - rewrite <- Heq.
    destruct (set_ping_data_scalars utcnow rt rc false self) as [_ [Hsame|[_ Hset]]].
    + by apply scalars_last_good_time.
    + by rewrite (scalars_last_good_time _ _ Hset), last_good_time_set_latest.
  - intros Hst.
    rewrite (scalars_last_status _ _
               (set_ping_data_ok_scalars utcnow rt rc false self idx Hcall Hst)).
    apply last_status_set_latest.
Qed.

Lemma flip_keeps_last_good_time_witness :
  let self := record_all [mkSample mon_0015 (Some 120) 200 true] (default_document 0) in
  let self' := state_after (ping_service (Some failing_service) mon_0320) self in
  last_operational_status self = Some true /\
  is_Some (updated self) /\
  last_good_time self' = updated self /\
  (is_stale (updated self) mon_0320 = false -> last_operational_status self' = Some false).
Proof.
  intros self.
  apply (flip_keeps_last_good_time [mkSample mon_0015 (Some 120) 200 true] 0 mon_0320
           failing_service true (Some true)).
  - reflexivity.
  - reflexivity.
Defined.

(** ** [get_for_service] *)

Lemma default_document_absent now (j : nat) :
  (j < 168)%nat -> triple (default_document now) j = absent_triple.
Proof.
  intros Hj. unfold triple, default_document, absent_triple.
  cbn [response_times response_codes operational_statuses].
  by rewrite !lookup_replicate_2 by lia.
Qed.

(** X15. Provided the collection answers a query on [service_id] only with
    documents of that service, [get_for_service] returns a document of the
    requested service. When the collection holds none, the document is a
    new one: created now, never updated, no last good time, and 168 absent
    slots in each list. *)
Theorem get_for_service_answers (find_one : ObjectId -> option PingLatest)
    (utcnow : datetime) (sid : ObjectId) :
  (forall id pl, find_one id = Some pl -> service_id pl = Some id) ->
  let pl := get_for_service find_one utcnow sid in
  service_id pl = Some sid /\
  (find_one sid = None ->
     well_formed pl /\ created pl = Some utcnow /\ updated pl = None /\
     last_operational_status pl = None /\ last_good_time pl = None /\
     forall j : nat, (j < 168)%nat -> triple pl j = absent_triple).
Proof.
  intros Hquery pl. subst pl. unfold get_for_service.
  destruct (find_one sid) as [stored|] eqn:Hfind.
  - split; [by apply Hquery | done].
  - split; [done|]. intros _. repeat split.
    intros j Hj. by apply (default_document_absent utcnow).
Qed.

Lemma get_for_service_answers_witness :
  let stored := with_service_id (Some "svc-1")
                  (state_after (set_ping_data mon_0015 (Some 120) 200 true)
                     (default_document 0)) in
  let find_one := fun id : ObjectId => if String.eqb id "svc-1" then Some stored else None in
  let pl := get_for_service find_one mon_0320 "svc-2" in
  service_id pl = Some "svc-2" /\
  (find_one "svc-2" = None ->
     well_formed pl /\ created pl = Some mon_0320 /\ updated pl = None /\
     last_operational_status pl = None /\ last_good_time pl = None /\
     forall j : nat, (j < 168)%nat -> triple pl j = absent_triple).
Proof.
  intros stored find_one.
  apply (get_for_service_answers find_one mon_0320 "svc-2").
  intros id pl. unfold find_one.
  destruct (String.eqb_spec id "svc-1") as [->|]; [|discriminate].
  intros [= <-]. reflexivity.
Defined.

(** X16. The first ping cycle of a service the collection does not know:
    when the probe yields a sample, [ping_service] on the document handed
    out by [get_for_service] returns "new" and a falsy flip flag ([None]),
    writes the sample into the slot of now and leaves the 167 other slots
    absent; [last_good_time] is set exactly when the sample is operational,
    and the document still belongs to the requested service. *)
Theorem first_ping_of_new_service (find_one : ObjectId -> option PingLatest)
    (created_at utcnow : datetime) (sid : ObjectId) (s : Service)
    (rt : option Z) (rc : Z) (os : bool) :
  find_one sid = None ->
  let pl := get_for_service find_one created_at sid in
  result_of (probe s) pl = Ok (rt, rc, os) ->
  let pl' := state_after (ping_service (Some s) utcnow) pl in
  result_of (ping_service (Some s) utcnow) pl = Ok (true, None) /\
  service_id pl' = Some sid /\
  updated pl' = Some utcnow /\
  last_good_time pl' = (if os then Some utcnow else None) /\
  forall j : nat, (j < 168)%nat ->
    triple pl' j
    = if decide (j = Z.to_nat (slot utcnow))
      then (Some rt, Some (Some rc), Some (Some os))
      else absent_triple.
Proof.
  intros Hfind pl Hprobe pl'.
  assert (pl = with_service_id (Some sid) (default_document created_at)) as Hpl
    by (subst pl; unfold get_for_service; by rewrite Hfind).
  assert (well_formed pl) as Hwf by (by rewrite Hpl).
  assert (is_stale (updated pl) utcnow = false) as Hst by (by rewrite Hpl).
  assert (gap_filled utcnow pl = pl) as Hgap by (by rewrite Hpl).
  assert (walk_in_range pl utcnow) as Hrange by (by rewrite Hpl).
  unfold pl', state_after, result_of.
  rewrite (ping_service_run _ _ _ _ _ _ Hprobe), finish_ping_run, Hgap by done.
  cbn [fst snd]. split; [by rewrite Hpl|].
  split; [rewrite Hpl; by destruct os|].
  split; [by destruct os|].
  split; [rewrite Hpl; by destruct os|].
  intros j Hj. rewrite triple_store by eauto with wf.
  rewrite triple_set_latest.
  case_decide; case_decide; try done; try congruence.
  rewrite Hpl. by apply (default_document_absent created_at).
Qed.

Lemma first_ping_of_new_service_witness :
  let find_one := fun _ : ObjectId => @None PingLatest in
  let pl := get_for_service find_one 0 "svc-1" in
  let pl' := state_after (ping_service (Some bad_request_service) mon_0320) pl in
  result_of (ping_service (Some bad_request_service) mon_0320) pl = Ok (true, None) /\
  service_id pl' = Some "svc-1" /\
  updated pl' = Some mon_0320 /\
  last_good_time pl' = (if true then Some mon_0320 else None) /\
  forall j : nat, (j < 168)%nat ->
    triple pl' j
    = if decide (j = Z.to_nat (slot mon_0320))
      then (Some (Some 35), Some (Some 400), Some (Some true))
      else absent_triple.
Proof.
  intros find_one.
  apply (first_ping_of_new_service find_one 0 mon_0320 "svc-1" bad_request_service
           (Some 35) 400 true).
  - reflexivity.
  - reflexivity.
Defined.
